(** * fs/file_table.c: the file-table object allocator and its teardown chain

    A shallow embedding of [get_empty_filp], [alloc_file],
    [drop_file_write_access], [__fput], [fput], [put_filp], [file_free] and
    [file_free_rcu], as state transformers on an explicit kernel state.
    Every call into another subsystem is recorded, in program order, in a
    trace of events, so that ordering properties of the teardown chain are
    statements about that trace.

    Pointers are addresses ([nat]), [NULL] is address 0, and the objects
    behind them live in total stores indexed by address.  The functions are
    modelled under the kernel's own calling convention: the pointers handed
    to them are valid, so a dereference is a lookup in the store. *)

From stdpp Require Import base numbers option list gmap functions.
From Stdlib Require Import ZArith Lia.

Local Open Scope Z_scope.

(** ** Machine integers *)

Definition ptr : Type := nat.
Definition NULL : ptr := 0%nat.

(** The msm8974 is a 32-bit ARM target: [long] and [atomic_long_t] have 32
    bits, [int] and [atomic_t] have 32 bits. *)
Definition BITS_PER_LONG : Z := 32.

Definition wrap_signed (w z : Z) : Z := (z + 2 ^ (w - 1)) mod 2 ^ w - 2 ^ (w - 1).
Definition to_long (z : Z) : Z := wrap_signed BITS_PER_LONG z.
Definition to_ulong (z : Z) : Z := z mod 2 ^ BITS_PER_LONG.
Definition to_int (z : Z) : Z := wrap_signed 32 z.

Definition LONG_MAX : Z := 2 ^ (BITS_PER_LONG - 1) - 1.
Definition LONG_MIN : Z := - 2 ^ (BITS_PER_LONG - 1).

(** ** Constants of headers *)

(** Modelled from the spec: the mode bits of a handle object ("readable,
    writable, path-only, async-notify-enabled") and the file-type bits of a
    resource are declared in include/linux/fs.h, include/linux/stat.h and
    the fcntl headers, which are not under src/; the values below are the
    ones of those headers. *)
Definition FMODE_READ : Z := 1.
Definition FMODE_WRITE : Z := 2.
Definition FMODE_PATH : Z := 16384.
Definition FASYNC : Z := 8192.
Definition S_IFMT : Z := 61440.
Definition S_IFSOCK : Z := 49152.
Definition S_IFREG : Z := 32768.
Definition S_IFBLK : Z := 24576.
Definition S_IFCHR : Z := 8192.
Definition S_IFIFO : Z := 4096.
Definition NR_FILE : Z := 8192.
Definition CAP_SYS_ADMIN : Z := 21.
Definition EINVAL : Z := 22.
Definition FILE_MNT_WRITE_TAKEN : Z := 1.
Definition FILE_MNT_WRITE_RELEASED : Z := 2.

Definition S_ISCHR (m : Z) : bool := Z.land m S_IFMT =? S_IFCHR.
Definition S_ISBLK (m : Z) : bool := Z.land m S_IFMT =? S_IFBLK.
Definition S_ISFIFO (m : Z) : bool := Z.land m S_IFMT =? S_IFIFO.
Definition S_ISSOCK (m : Z) : bool := Z.land m S_IFMT =? S_IFSOCK.
Definition special_file (m : Z) : bool :=
  S_ISCHR m || S_ISBLK m || S_ISFIFO m || S_ISSOCK m.

(** ** The sharded live-object counter *)

Module PercpuCounter.

(** Modelled from the spec: the Global Counter ([struct percpu_counter],
    lib/percpu_counter.c) is not under src/.  The spec describes it as
    "an approximate, per-execution-unit sharded counter of live handle
    objects, supporting fast increment/decrement and a slow, exact
    aggregate read", realised as "per-core/per-thread atomic counters
    summed on demand".  [count] is the aggregate that the fast read
    returns; [counters] holds, per execution unit, the increments not yet
    folded into it.  The widths of the fields are not modelled. *)
Record t := mk { count : Z; counters : gmap nat Z }.

Definition init (amount : Z) : t := mk amount ∅.

Definition this_cpu_read (fbc : t) (cpu : nat) : Z :=
  default 0 (counters fbc !! cpu).

(** A unit folds its shard into the aggregate once the shard reaches the
    batch size in either direction. *)
Definition add (fbc : t) (cpu : nat) (amount batch : Z) : t :=
  let c := this_cpu_read fbc cpu + amount in
  if (c >=? batch) || (c <=? - batch)
  then mk (count fbc + c) (<[cpu := 0]> (counters fbc))
  else mk (count fbc) (<[cpu := c]> (counters fbc)).

Definition inc (fbc : t) (cpu : nat) (batch : Z) : t := add fbc cpu 1 batch.
Definition dec (fbc : t) (cpu : nat) (batch : Z) : t := add fbc cpu (-1) batch.

Definition shard_total (m : gmap nat Z) : Z :=
  map_fold (fun _ v acc => v + acc) 0 m.

(** The slow, exact aggregate read. *)
Definition sum (fbc : t) : Z := count fbc + shard_total (counters fbc).

(** The fast, approximate read, never negative. *)
Definition read_positive (fbc : t) : Z :=
  if 0 <=? count fbc then count fbc else 0.

Definition sum_positive (fbc : t) : Z :=
  let ret := sum fbc in if ret <? 0 then 0 else ret.

End PercpuCounter.

(** ** Objects *)

(** The operation table bound to a file: which callbacks it provides. *)
Record file_operations := mk_fops {
  fop_owner : ptr;
  fop_fasync : bool;
  fop_release : bool
}.

Record inode := mk_inode {
  i_mode : Z;
  i_writecount : Z;
  i_readcount : Z;
  i_cdev : ptr;
  i_mapping : ptr
}.

Record dentry := mk_dentry { d_inode : ptr }.

Record path := mk_path { path_mnt : ptr; path_dentry : ptr }.

Record file := mk_file {
  f_path : path;
  f_inode : ptr;
  f_op : option file_operations;
  f_count : Z;
  f_flags : Z;
  f_mode : Z;
  f_owner_pid : ptr;
  f_cred : ptr;
  f_mapping : ptr;
  f_mnt_write_state : Z
}.

(** What [kmem_cache_zalloc] hands out. *)
Definition file_zero : file :=
  mk_file (mk_path NULL NULL) NULL None 0 0 0 NULL NULL NULL 0.

Definition set_f_path (v : path) (f : file) : file :=
  mk_file v (f_inode f) (f_op f) (f_count f) (f_flags f) (f_mode f)
          (f_owner_pid f) (f_cred f) (f_mapping f) (f_mnt_write_state f).
Definition set_f_inode (v : ptr) (f : file) : file :=
  mk_file (f_path f) v (f_op f) (f_count f) (f_flags f) (f_mode f)
          (f_owner_pid f) (f_cred f) (f_mapping f) (f_mnt_write_state f).
Definition set_f_op (v : option file_operations) (f : file) : file :=
  mk_file (f_path f) (f_inode f) v (f_count f) (f_flags f) (f_mode f)
          (f_owner_pid f) (f_cred f) (f_mapping f) (f_mnt_write_state f).
Definition set_f_count (v : Z) (f : file) : file :=
  mk_file (f_path f) (f_inode f) (f_op f) v (f_flags f) (f_mode f)
          (f_owner_pid f) (f_cred f) (f_mapping f) (f_mnt_write_state f).
Definition set_f_mode (v : Z) (f : file) : file :=
  mk_file (f_path f) (f_inode f) (f_op f) (f_count f) (f_flags f) v
          (f_owner_pid f) (f_cred f) (f_mapping f) (f_mnt_write_state f).
Definition set_f_cred (v : ptr) (f : file) : file :=
  mk_file (f_path f) (f_inode f) (f_op f) (f_count f) (f_flags f) (f_mode f)
          (f_owner_pid f) v (f_mapping f) (f_mnt_write_state f).
Definition set_f_mapping (v : ptr) (f : file) : file :=
  mk_file (f_path f) (f_inode f) (f_op f) (f_count f) (f_flags f) (f_mode f)
          (f_owner_pid f) (f_cred f) v (f_mnt_write_state f).
Definition set_f_mnt_write_state (v : Z) (f : file) : file :=
  mk_file (f_path f) (f_inode f) (f_op f) (f_count f) (f_flags f) (f_mode f)
          (f_owner_pid f) (f_cred f) (f_mapping f) v.

Definition set_i_writecount (v : Z) (i : inode) : inode :=
  mk_inode (i_mode i) v (i_readcount i) (i_cdev i) (i_mapping i).
Definition set_i_readcount (v : Z) (i : inode) : inode :=
  mk_inode (i_mode i) (i_writecount i) v (i_cdev i) (i_mapping i).

(** ** Events: the calls that leave file_table.c, and its stores to the
    resource-association fields *)

Inductive event :=
  | Efsnotify_close (file : ptr)
  | Eeventpoll_release (file : ptr)
  | Elocks_remove_file (file : ptr)
  | Efasync (fd : Z) (file : ptr) (on : Z)
  | Erelease (inode : ptr) (file : ptr)
  | Esecurity_file_free (file : ptr)
  | Eima_file_free (file : ptr)
  | Ecdev_put (cdev : ptr)
  | Emodule_put (owner : ptr)
  | Eput_pid (pid : ptr)
  | Ei_readcount_dec (inode : ptr)
  | Ei_readcount_inc (inode : ptr)
  | Eput_write_access (inode : ptr)
  | Emnt_drop_write (mnt : ptr)
  | Emnt_clone_write (mnt : ptr)
  | Estore_dentry_null (file : ptr)
  | Estore_mnt_null (file : ptr)
  | Estore_inode_null (file : ptr)
  | Epercpu_counter_inc
  | Epercpu_counter_dec
  | Ecall_rcu (file : ptr)
  | Edput (dentry : ptr)
  | Emntput (mnt : ptr)
  | Eget_cred (cred : ptr)
  | Eput_cred (cred : ptr)
  | Ekmem_cache_zalloc (file : ptr)
  | Ekmem_cache_free (file : ptr)
  | Esecurity_file_alloc (file : ptr)
  | Erwlock_init (file : ptr)
  | Espin_lock_init (file : ptr)
  | Eeventpoll_init_file (file : ptr)
  | Epr_info (max : Z)
  | Ewarn.

Global Instance event_eq_dec : EqDecision event.
Proof. solve_decision. Defined.

(** ** Kernel state *)

Record kstate := mk_kstate {
  k_files : ptr -> file;
  k_inodes : ptr -> inode;
  k_dentries : ptr -> dentry;
  k_mnt_writers : ptr -> Z;
  k_cred_usage : ptr -> Z;
  nr_files : PercpuCounter.t;
  percpu_counter_batch : Z;
  max_files : Z;
  old_max : Z;
  k_rcu : list ptr;
  k_trace : list event
}.

Definition set_files (v : ptr -> file) (s : kstate) : kstate :=
  mk_kstate v (k_inodes s) (k_dentries s) (k_mnt_writers s) (k_cred_usage s)
            (nr_files s) (percpu_counter_batch s) (max_files s) (old_max s)
            (k_rcu s) (k_trace s).
Definition set_inodes (v : ptr -> inode) (s : kstate) : kstate :=
  mk_kstate (k_files s) v (k_dentries s) (k_mnt_writers s) (k_cred_usage s)
            (nr_files s) (percpu_counter_batch s) (max_files s) (old_max s)
            (k_rcu s) (k_trace s).
Definition set_mnt_writers (v : ptr -> Z) (s : kstate) : kstate :=
  mk_kstate (k_files s) (k_inodes s) (k_dentries s) v (k_cred_usage s)
            (nr_files s) (percpu_counter_batch s) (max_files s) (old_max s)
            (k_rcu s) (k_trace s).
Definition set_cred_usage (v : ptr -> Z) (s : kstate) : kstate :=
  mk_kstate (k_files s) (k_inodes s) (k_dentries s) (k_mnt_writers s) v
            (nr_files s) (percpu_counter_batch s) (max_files s) (old_max s)
            (k_rcu s) (k_trace s).
Definition set_nr_files (v : PercpuCounter.t) (s : kstate) : kstate :=
  mk_kstate (k_files s) (k_inodes s) (k_dentries s) (k_mnt_writers s)
            (k_cred_usage s) v (percpu_counter_batch s) (max_files s)
            (old_max s) (k_rcu s) (k_trace s).
Definition set_old_max (v : Z) (s : kstate) : kstate :=
  mk_kstate (k_files s) (k_inodes s) (k_dentries s) (k_mnt_writers s)
            (k_cred_usage s) (nr_files s) (percpu_counter_batch s)
            (max_files s) v (k_rcu s) (k_trace s).
Definition set_rcu (v : list ptr) (s : kstate) : kstate :=
  mk_kstate (k_files s) (k_inodes s) (k_dentries s) (k_mnt_writers s)
            (k_cred_usage s) (nr_files s) (percpu_counter_batch s)
            (max_files s) (old_max s) v (k_trace s).
Definition set_trace (v : list event) (s : kstate) : kstate :=
  mk_kstate (k_files s) (k_inodes s) (k_dentries s) (k_mnt_writers s)
            (k_cred_usage s) (nr_files s) (percpu_counter_batch s)
            (max_files s) (old_max s) (k_rcu s) v.

(** Append one event to the trace. *)
Definition emit (e : event) (s : kstate) : kstate :=
  set_trace (k_trace s ++ [e]) s.

(** Update the file object at an address. *)
Definition upd_file (p : ptr) (g : file -> file) (s : kstate) : kstate :=
  set_files (<[p := g (k_files s p)]> (k_files s)) s.
Definition upd_inode (p : ptr) (g : inode -> inode) (s : kstate) : kstate :=
  set_inodes (<[p := g (k_inodes s p)]> (k_inodes s)) s.

(** The execution context of a call: the CPU it runs on, the credentials of
    [current], and the answers of the collaborators that the call consults:
    [capable(cap)], the object that [kmem_cache_zalloc] returns (or NULL),
    the return value of [security_file_alloc], and the return value of
    [mnt_clone_write] on a mount. *)
Record ctx := mk_ctx {
  cpu : nat;
  current_cred : ptr;
  capable : Z -> bool;
  kmem_cache_zalloc : option ptr;
  security_file_alloc : Z;
  mnt_clone_write_result : ptr -> Z
}.

Definition nonzero (z : Z) : bool := negb (z =? 0).

(** ** Primitives of other subsystems that change modelled state *)

(** [atomic_long_dec_and_test(&file->f_count)]: decrement, and tell whether
    the result is zero. *)
Definition atomic_long_dec_and_test (p : ptr) (s : kstate) : bool * kstate :=
  let v := to_long (f_count (k_files s p) - 1) in
  (v =? 0, upd_file p (set_f_count v) s).

(** Modelled from the spec: [get_file] (include/linux/fs.h) is not under
    src/; the spec gives "retain(obj): atomic increment; callable any time
    the caller already holds a valid reference; never fails". *)
Definition get_file (p : ptr) (s : kstate) : kstate :=
  upd_file p (fun f => set_f_count (to_long (f_count f + 1)) f) s.

Definition percpu_counter_inc (c : ctx) (s : kstate) : kstate :=
  emit Epercpu_counter_inc
    (set_nr_files (PercpuCounter.inc (nr_files s) (cpu c) (percpu_counter_batch s)) s).

Definition percpu_counter_dec (c : ctx) (s : kstate) : kstate :=
  emit Epercpu_counter_dec
    (set_nr_files (PercpuCounter.dec (nr_files s) (cpu c) (percpu_counter_batch s)) s).

(** Modelled from the spec: the credential reference count
    (include/linux/cred.h) is not under src/; credentials are "captured at
    creation time" by taking a reference and "released exactly once at
    final destruction" by dropping it. *)
Definition get_cred (cred : ptr) (s : kstate) : kstate :=
  emit (Eget_cred cred)
    (set_cred_usage (<[cred := k_cred_usage s cred + 1]> (k_cred_usage s)) s).

Definition put_cred (cred : ptr) (s : kstate) : kstate :=
  emit (Eput_cred cred)
    (set_cred_usage (<[cred := k_cred_usage s cred - 1]> (k_cred_usage s)) s).

(** Modelled from the spec: the resource's counters (include/linux/fs.h,
    fs/namespace.c) are not under src/: "a write-access counter on the
    resource" ([i_writecount]), "a read-count on the resource"
    ([i_readcount]) and the "mount is writable" claim (the writer count of
    the mount).  The first two are [atomic_t].  Each primitive is its
    increment or decrement; the assertion that the kernel attaches to a
    read count that is already 0 is not modelled.  [mnt_clone_write] is
    the one of them that returns a value: it can refuse, and then returns
    an error and leaves the writer count as it is; what it returns is an
    answer of the context. *)
Definition put_write_access (i : ptr) (s : kstate) : kstate :=
  emit (Eput_write_access i)
    (upd_inode i (fun n => set_i_writecount (to_int (i_writecount n - 1)) n) s).

Definition i_readcount_dec (i : ptr) (s : kstate) : kstate :=
  emit (Ei_readcount_dec i)
    (upd_inode i (fun n => set_i_readcount (to_int (i_readcount n - 1)) n) s).

Definition i_readcount_inc (i : ptr) (s : kstate) : kstate :=
  emit (Ei_readcount_inc i)
    (upd_inode i (fun n => set_i_readcount (to_int (i_readcount n + 1)) n) s).

Definition mnt_drop_write (m : ptr) (s : kstate) : kstate :=
  emit (Emnt_drop_write m)
    (set_mnt_writers (<[m := k_mnt_writers s m - 1]> (k_mnt_writers s)) s).

Definition mnt_clone_write (c : ctx) (m : ptr) (s : kstate) : Z * kstate :=
  let s := emit (Emnt_clone_write m) s in
  let r := mnt_clone_write_result c m in
  if nonzero r then (r, s)
  else (0, set_mnt_writers (<[m := k_mnt_writers s m + 1]> (k_mnt_writers s)) s).

(** Modelled from the spec: the object's "own write-access bookkeeping"
    ([f_mnt_write_state] and its helpers, include/linux/fs.h) is not under
    src/.  The object records that it took the mount-writable claim, and
    that it gave it back; [file_check_writeable] is the "idempotency guard"
    of teardown step 7: it answers 0 only while the claim is taken and not
    yet given back. *)
Definition file_take_write (p : ptr) (s : kstate) : kstate :=
  let s := if nonzero (f_mnt_write_state (k_files s p)) then emit Ewarn s else s in
  upd_file p (set_f_mnt_write_state FILE_MNT_WRITE_TAKEN) s.

Definition file_release_write (p : ptr) (s : kstate) : kstate :=
  upd_file p
    (fun f => set_f_mnt_write_state
                (Z.lor (f_mnt_write_state f) FILE_MNT_WRITE_RELEASED) f) s.

Definition file_check_state (p : ptr) (s : kstate) : kstate :=
  let st := f_mnt_write_state (k_files s p) in
  let s := if st =? FILE_MNT_WRITE_TAKEN then emit Ewarn s else s in
  if st =? FILE_MNT_WRITE_RELEASED then emit Ewarn s else s.

Definition file_check_writeable (p : ptr) (s : kstate) : Z * kstate :=
  if f_mnt_write_state (k_files s p) =? FILE_MNT_WRITE_TAKEN
  then (0, s)
  else (- EINVAL, emit Ewarn s).

(** Modelled from the spec: deferred reclamation ([call_rcu],
    kernel/rcupdate.c) is not under src/.  [call_rcu] queues the callback of
    an object; the queued callbacks run later, in order, once "a grace
    period has elapsed".  file_table.c queues one callback only,
    [file_free_rcu], so the queue holds the objects. *)
Definition call_rcu (p : ptr) (s : kstate) : kstate :=
  emit (Ecall_rcu p) (set_rcu (k_rcu s ++ [p]) s).

(** ** file_table.c *)

Definition file_free_rcu (f : ptr) (s : kstate) : kstate :=
  let s := put_cred (f_cred (k_files s f)) s in
  emit (Ekmem_cache_free f) s.

Definition file_free (c : ctx) (f : ptr) (s : kstate) : kstate :=
  let s := percpu_counter_dec c s in
  let s := file_check_state f s in
  call_rcu f s.

(** The end of a grace period: every queued callback runs. *)
Definition rcu_do_batch (s : kstate) : kstate :=
  fold_left (fun s f => file_free_rcu f s) (k_rcu s) (set_rcu [] s).

Definition get_nr_files (s : kstate) : Z :=
  to_long (PercpuCounter.read_positive (nr_files s)).

Definition get_max_files (s : kstate) : Z := max_files s.

Definition get_empty_filp (c : ctx) (s : kstate) : option ptr * kstate :=
  let cred := current_cred c in
  if (to_ulong (get_nr_files s) >=? max_files s)
     && negb (capable c CAP_SYS_ADMIN)
     && (PercpuCounter.sum_positive (nr_files s) >=? max_files s)
  then
    (* over: *)
    let s := if get_nr_files s >? old_max s
             then set_old_max (get_nr_files s) (emit (Epr_info (get_max_files s)) s)
             else s in
    (None, s)
  else
    match kmem_cache_zalloc c with
    | None => (None, s)
    | Some f =>
      let s := emit (Ekmem_cache_zalloc f) (upd_file f (fun _ => file_zero) s) in
      let s := percpu_counter_inc c s in
      let s := upd_file f (set_f_cred cred) (get_cred cred s) in
      let s := emit (Esecurity_file_alloc f) s in
      if nonzero (security_file_alloc c)
      then
        (* fail_sec: *)
        (None, file_free c f s)
      else
        let s := upd_file f (set_f_count 1) s in
        let s := emit (Erwlock_init f) s in
        let s := emit (Espin_lock_init f) s in
        let s := emit (Eeventpoll_init_file f) s in
        (Some f, s)
    end.

Definition alloc_file (c : ctx) (pa : path) (mode : Z)
    (fop : option file_operations) (s : kstate) : option ptr * kstate :=
  match get_empty_filp c s with
  | (None, s) => (None, s)
  | (Some file, s) =>
    let inode := d_inode (k_dentries s (path_dentry pa)) in
    let s := upd_file file (set_f_path pa) s in
    let s := upd_file file (set_f_inode inode) s in
    let s := upd_file file (set_f_mapping (i_mapping (k_inodes s inode))) s in
    let s := upd_file file (set_f_mode mode) s in
    let s := upd_file file (set_f_op fop) s in
    let s := if nonzero (Z.land mode FMODE_WRITE)
                && negb (special_file (i_mode (k_inodes s inode)))
             then
               let s := file_take_write file s in
               (* WARN_ON(mnt_clone_write(path->mnt)) *)
               let (r, s) := mnt_clone_write c (path_mnt pa) s in
               if nonzero r then emit Ewarn s else s
             else s in
    let s := if Z.land mode (Z.lor FMODE_READ FMODE_WRITE) =? FMODE_READ
             then i_readcount_inc inode s
             else s in
    (Some file, s)
  end.

Definition drop_file_write_access (file : ptr) (s : kstate) : kstate :=
  let mnt := path_mnt (f_path (k_files s file)) in
  let dentry := path_dentry (f_path (k_files s file)) in
  let inode := d_inode (k_dentries s dentry) in
  let s := put_write_access inode s in
  if special_file (i_mode (k_inodes s inode)) then s
  else
    let (r, s) := file_check_writeable file s in
    if nonzero r then s
    else
      let s := mnt_drop_write mnt s in
      file_release_write file s.

(** [fops_put(fops)]: drop the module reference of a non-NULL table. *)
Definition fops_put (fop : option file_operations) (s : kstate) : kstate :=
  match fop with
  | Some o => emit (Emodule_put (fop_owner o)) s
  | None => s
  end.

(** [if (cond) stmt;] *)
Definition when (b : kstate -> bool) (k : kstate -> kstate) (s : kstate) : kstate :=
  if b s then k s else s.

(** [file->f_op && file->f_op->fasync], [file->f_op && file->f_op->release] *)
Definition has_fasync (o : option file_operations) : bool :=
  match o with Some t => fop_fasync t | None => false end.
Definition has_release (o : option file_operations) : bool :=
  match o with Some t => fop_release t | None => false end.

(** [fops_put(file->f_op);] and [put_pid(file->f_owner.pid);] *)
Definition fput_fops_put (file : ptr) (s : kstate) : kstate :=
  fops_put (f_op (k_files s file)) s.
Definition fput_put_pid (file : ptr) (s : kstate) : kstate :=
  emit (Eput_pid (f_owner_pid (k_files s file))) s.

(** The real guts of [fput]: releasing the last reference to a file.  The
    callbacks of the operation table belong to the backing resource; here
    they are calls recorded in the trace. *)
Definition __fput (c : ctx) (file : ptr) (s : kstate) : kstate :=
  let dentry := path_dentry (f_path (k_files s file)) in
  let mnt := path_mnt (f_path (k_files s file)) in
  let inode := d_inode (k_dentries s dentry) in
  let s := emit (Efsnotify_close file) s in
  let s := emit (Eeventpoll_release file) s in
  let s := emit (Elocks_remove_file file) s in
  let s := when (fun s => nonzero (Z.land (f_flags (k_files s file)) FASYNC))
             (when (fun s => has_fasync (f_op (k_files s file)))
                (emit (Efasync (-1) file 0))) s in
  let s := when (fun s => has_release (f_op (k_files s file)))
             (emit (Erelease inode file)) s in
  let s := emit (Esecurity_file_free file) s in
  let s := emit (Eima_file_free file) s in
  let s := when (fun s => S_ISCHR (i_mode (k_inodes s inode))
                          && negb (Nat.eqb (i_cdev (k_inodes s inode)) NULL)
                          && negb (nonzero (Z.land (f_mode (k_files s file)) FMODE_PATH)))
             (fun s => emit (Ecdev_put (i_cdev (k_inodes s inode))) s) s in
  let s := fput_fops_put file s in
  let s := fput_put_pid file s in
  let s := when (fun s => Z.land (f_mode (k_files s file)) (Z.lor FMODE_READ FMODE_WRITE)
                          =? FMODE_READ)
             (i_readcount_dec inode) s in
  let s := when (fun s => nonzero (Z.land (f_mode (k_files s file)) FMODE_WRITE))
             (drop_file_write_access file) s in
  let s := emit (Estore_dentry_null file)
             (upd_file file (fun f => set_f_path (mk_path (path_mnt (f_path f)) NULL) f) s) in
  let s := emit (Estore_mnt_null file)
             (upd_file file (fun f => set_f_path (mk_path NULL (path_dentry (f_path f))) f) s) in
  let s := emit (Estore_inode_null file) (upd_file file (set_f_inode NULL) s) in
  let s := file_free c file s in
  let s := emit (Edput dentry) s in
  emit (Emntput mnt) s.

Definition fput (c : ctx) (file : ptr) (s : kstate) : kstate :=
  let (z, s) := atomic_long_dec_and_test file s in
  if z then __fput c file s else s.

Definition put_filp (c : ctx) (file : ptr) (s : kstate) : kstate :=
  let (z, s) := atomic_long_dec_and_test file s in
  if z
  then
    let s := emit (Esecurity_file_free file) s in
    file_free c file s
  else s.

(** ** The three phases of [__fput]

    [__fput] is, by unfolding, [fput_tail] after [fput_claims] after
    [fput_head]: the calls that only notify other subsystems, the claims on
    the resource, and the end of the object's association. *)

Definition fput_head (file inode : ptr) (s : kstate) : kstate :=
  let s := emit (Efsnotify_close file) s in
  let s := emit (Eeventpoll_release file) s in
  let s := emit (Elocks_remove_file file) s in
  let s := when (fun s => nonzero (Z.land (f_flags (k_files s file)) FASYNC))
             (when (fun s => has_fasync (f_op (k_files s file)))
                (emit (Efasync (-1) file 0))) s in
  let s := when (fun s => has_release (f_op (k_files s file)))
             (emit (Erelease inode file)) s in
  let s := emit (Esecurity_file_free file) s in
  let s := emit (Eima_file_free file) s in
  let s := when (fun s => S_ISCHR (i_mode (k_inodes s inode))
                          && negb (Nat.eqb (i_cdev (k_inodes s inode)) NULL)
                          && negb (nonzero (Z.land (f_mode (k_files s file)) FMODE_PATH)))
             (fun s => emit (Ecdev_put (i_cdev (k_inodes s inode))) s) s in
  let s := fput_fops_put file s in
  fput_put_pid file s.

Definition fput_claims (file inode : ptr) (s : kstate) : kstate :=
  let s := when (fun s => Z.land (f_mode (k_files s file)) (Z.lor FMODE_READ FMODE_WRITE)
                          =? FMODE_READ)
             (i_readcount_dec inode) s in
  when (fun s => nonzero (Z.land (f_mode (k_files s file)) FMODE_WRITE))
    (drop_file_write_access file) s.

Definition fput_tail (c : ctx) (file dentry mnt : ptr) (s : kstate) : kstate :=
  let s := emit (Estore_dentry_null file)
             (upd_file file (fun f => set_f_path (mk_path (path_mnt (f_path f)) NULL) f) s) in
  let s := emit (Estore_mnt_null file)
             (upd_file file (fun f => set_f_path (mk_path NULL (path_dentry (f_path f))) f) s) in
  let s := emit (Estore_inode_null file) (upd_file file (set_f_inode NULL) s) in
  let s := file_free c file s in
  let s := emit (Edput dentry) s in
  emit (Emntput mnt) s.

(** The count that [atomic_long_dec_and_test] leaves. *)
Definition dec_count (file : ptr) (s : kstate) : Z :=
  to_long (f_count (k_files s file) - 1).

(** The admission test of [get_empty_filp]: the jump to [over]. *)
Definition over_limit (c : ctx) (s : kstate) : bool :=
  (to_ulong (get_nr_files s) >=? max_files s)
  && negb (capable c CAP_SYS_ADMIN)
  && (PercpuCounter.sum_positive (nr_files s) >=? max_files s).

(** ** Reference holders: sequences of [get_file] and [fput] on one object *)

Inductive call :=
  | Cget_file
  | Cfput (c : ctx).

Definition do_call (file : ptr) (k : call) (s : kstate) : kstate :=
  match k with
  | Cget_file => get_file file s
  | Cfput c => fput c file s
  end.

Fixpoint run (file : ptr) (ks : list call) (s : kstate) : kstate :=
  match ks with
  | [] => s
  | k :: ks => run file ks (do_call file k s)
  end.

(** Every call of the sequence is made by a holder of a reference: the
    count is at least 1 when the call is made. *)
Fixpoint holds_reference (file : ptr) (ks : list call) (s : kstate) : bool :=
  match ks with
  | [] => true
  | k :: ks =>
    (0 <? f_count (k_files s file)) && holds_reference file ks (do_call file k s)
  end.

Definition is_fput (k : call) : bool :=
  match k with Cfput _ => true | Cget_file => false end.

Fixpoint retains (ks : list call) : Z :=
  match ks with
  | [] => 0
  | Cget_file :: ks => 1 + retains ks
  | Cfput _ :: ks => retains ks
  end.

Fixpoint releases (ks : list call) : Z :=
  match ks with
  | [] => 0
  | Cget_file :: ks => releases ks
  | Cfput _ :: ks => 1 + releases ks
  end.

(** How often the teardown of [file] has run: [__fput] starts with
    [fsnotify_close(file)], and nothing else calls it. *)
Definition teardowns (file : ptr) (s : kstate) : nat :=
  count_occ event_eq_dec (k_trace s) (Efsnotify_close file).

(** ** The calls of one teardown, as a function of the state it starts in *)

Definition the_inode (file : ptr) (s : kstate) : ptr :=
  d_inode (k_dentries s (path_dentry (f_path (k_files s file)))).

Definition fasync_calls (file : ptr) (s : kstate) : list event :=
  if nonzero (Z.land (f_flags (k_files s file)) FASYNC)
  then if has_fasync (f_op (k_files s file))
       then [Efasync (-1) file 0] else []
  else [].

Definition release_calls (file : ptr) (s : kstate) : list event :=
  if has_release (f_op (k_files s file))
  then [Erelease (the_inode file s) file] else [].

Definition cdev_calls (file : ptr) (s : kstate) : list event :=
  if S_ISCHR (i_mode (k_inodes s (the_inode file s)))
     && negb (Nat.eqb (i_cdev (k_inodes s (the_inode file s))) NULL)
     && negb (nonzero (Z.land (f_mode (k_files s file)) FMODE_PATH))
  then [Ecdev_put (i_cdev (k_inodes s (the_inode file s)))] else [].

Definition fops_calls (file : ptr) (s : kstate) : list event :=
  match f_op (k_files s file) with
  | Some o => [Emodule_put (fop_owner o)]
  | None => []
  end.

Definition readcount_calls (file : ptr) (s : kstate) : list event :=
  if Z.land (f_mode (k_files s file)) (Z.lor FMODE_READ FMODE_WRITE) =? FMODE_READ
  then [Ei_readcount_dec (the_inode file s)] else [].

Definition drop_calls (file : ptr) (s : kstate) : list event :=
  Eput_write_access (the_inode file s) ::
  (if special_file (i_mode (k_inodes s (the_inode file s))) then []
   else if f_mnt_write_state (k_files s file) =? FILE_MNT_WRITE_TAKEN
        then [Emnt_drop_write (path_mnt (f_path (k_files s file)))]
        else [Ewarn]).

Definition write_calls (file : ptr) (s : kstate) : list event :=
  if nonzero (Z.land (f_mode (k_files s file)) FMODE_WRITE)
  then drop_calls file s else [].

Definition write_state_after_drop (file : ptr) (s : kstate) : Z :=
  if special_file (i_mode (k_inodes s (the_inode file s)))
  then f_mnt_write_state (k_files s file)
  else if f_mnt_write_state (k_files s file) =? FILE_MNT_WRITE_TAKEN
       then Z.lor (f_mnt_write_state (k_files s file)) FILE_MNT_WRITE_RELEASED
       else f_mnt_write_state (k_files s file).

Definition write_state_after_teardown (file : ptr) (s : kstate) : Z :=
  if nonzero (Z.land (f_mode (k_files s file)) FMODE_WRITE)
  then write_state_after_drop file s
  else f_mnt_write_state (k_files s file).

Definition check_state_calls (st : Z) : list event :=
  (if st =? FILE_MNT_WRITE_TAKEN then [Ewarn] else [])
  ++ (if st =? FILE_MNT_WRITE_RELEASED then [Ewarn] else []).

(** The calls of [file_free] on an object whose bookkeeping is [st]. *)
Definition file_free_calls (f : ptr) (st : Z) : list event :=
  [Epercpu_counter_dec] ++ check_state_calls st ++ [Ecall_rcu f].

(** What [file_free_rcu] does for one queued object. *)
Definition file_free_rcu_calls (s : kstate) (f : ptr) : list event :=
  [Eput_cred (f_cred (k_files s f)); Ekmem_cache_free f].

Definition store_calls (file : ptr) : list event :=
  [Estore_dentry_null file; Estore_mnt_null file; Estore_inode_null file].

(** The calls of the first phase. *)
Definition head_calls (file : ptr) (s : kstate) : list event :=
  [Efsnotify_close file; Eeventpoll_release file; Elocks_remove_file file]
  ++ fasync_calls file s
  ++ release_calls file s
  ++ [Esecurity_file_free file; Eima_file_free file]
  ++ cdev_calls file s
  ++ fops_calls file s
  ++ [Eput_pid (f_owner_pid (k_files s file))].

(** From the operation table's release callback to the claims on the
    resource: what runs between the async-signal step and the stores. *)
Definition teardown_middle (file : ptr) (s : kstate) : list event :=
  release_calls file s
  ++ [Esecurity_file_free file; Eima_file_free file]
  ++ cdev_calls file s
  ++ fops_calls file s
  ++ [Eput_pid (f_owner_pid (k_files s file))]
  ++ readcount_calls file s
  ++ write_calls file s.

(** What runs after the stores. *)
Definition teardown_tail (file : ptr) (s : kstate) : list event :=
  file_free_calls file (write_state_after_teardown file s)
  ++ [Edput (path_dentry (f_path (k_files s file)));
      Emntput (path_mnt (f_path (k_files s file)))].

Definition __fput_calls (file : ptr) (s : kstate) : list event :=
  [Efsnotify_close file; Eeventpoll_release file; Elocks_remove_file file]
  ++ fasync_calls file s
  ++ teardown_middle file s
  ++ store_calls file
  ++ teardown_tail file s.

(** The file object that a teardown leaves behind. *)
Definition torn_down (p : ptr) (s : kstate) : file :=
  set_f_inode NULL
    (set_f_path (mk_path NULL NULL)
       (set_f_mnt_write_state (write_state_after_teardown p s)
          (k_files s p))).

(** ** Kinds of events *)

(** The steps of the teardown sequencer. *)
Definition teardown_step (e : event) : bool :=
  match e with
  | Efsnotify_close _ | Eeventpoll_release _ | Elocks_remove_file _
  | Efasync _ _ _ | Erelease _ _ | Esecurity_file_free _ | Eima_file_free _
  | Ecdev_put _ | Emodule_put _ | Eput_pid _
  | Ei_readcount_dec _ | Eput_write_access _ | Emnt_drop_write _
  | Estore_dentry_null _ | Estore_mnt_null _ | Estore_inode_null _
  | Edput _ | Emntput _ => true
  | _ => false
  end.

(** Event deregistration, async-signal disabling and the clearing of the
    resource association: the three steps that the ordering property is
    about. *)
Definition ordered_step (e : event) : bool :=
  match e with
  | Eeventpoll_release _ | Efasync _ _ _
  | Estore_dentry_null _ | Estore_mnt_null _ | Estore_inode_null _ => true
  | _ => false
  end.

(** What deferred reclamation does: release of the credentials and return
    of the memory to the pool. *)
Definition reclaim_event (e : event) : bool :=
  match e with
  | Eput_cred _ | Ekmem_cache_free _ => true
  | _ => false
  end.

Definition is_put_write_access (e : event) : bool :=
  match e with Eput_write_access _ => true | _ => false end.
Definition is_i_readcount_dec (e : event) : bool :=
  match e with Ei_readcount_dec _ => true | _ => false end.
Definition is_mnt_drop_write (e : event) : bool :=
  match e with Emnt_drop_write _ => true | _ => false end.

(** Both the write-claim drop and the read-count decrement run, the former
    first. *)
Definition write_drop_then_readcount (l : list event) : Prop :=
  exists l1 i l2 j l3,
    l = l1 ++ Eput_write_access i :: l2 ++ Ei_readcount_dec j :: l3.

(** Both run, in the order in which [__fput] tests their guards. *)
Definition readcount_then_write_drop (l : list event) : Prop :=
  exists l1 j l2 i l3,
    l = l1 ++ Ei_readcount_dec j :: l2 ++ Eput_write_access i :: l3.

(** ** A small system to run the code on *)

Definition demo_inode : inode := mk_inode (Z.lor S_IFREG 420) 1 0 NULL 11%nat.

Definition demo_fops : file_operations := mk_fops 5%nat true true.

Definition demo_path : path := mk_path 30%nat 20%nat.

(** No open file, one regular inode behind every dentry, the default batch
    of the counter, and the given ceiling. *)
Definition demo_state (ceiling : Z) : kstate :=
  mk_kstate (fun _ => file_zero) (fun _ => demo_inode) (fun _ => mk_dentry 10%nat)
            (fun _ => 0) (fun _ => 1) (PercpuCounter.init 0) 32 ceiling 0 [] [].

(** An unprivileged caller on CPU 0, to whom the pool hands the object at
    [f], whom the security module allows and to whom no mount refuses
    write access. *)
Definition demo_ctx (f : ptr) : ctx :=
  mk_ctx 0%nat 7%nat (fun _ => false) (Some f) 0 (fun _ => 0).

Definition demo_root (f : ptr) : ctx :=
  mk_ctx 0%nat 7%nat (fun _ => true) (Some f) 0 (fun _ => 0).

Definition demo_denied (f : ptr) : ctx :=
  mk_ctx 0%nat 7%nat (fun _ => false) (Some f) (-13) (fun _ => 0).

(** The same caller as [demo_ctx], on mounts that are read-only:
    [mnt_clone_write] returns [-EROFS]. *)
Definition demo_readonly (f : ptr) : ctx :=
  mk_ctx 0%nat 7%nat (fun _ => false) (Some f) 0 (fun _ => -30).

(** The system after one [alloc_file] with the given mode. *)
Definition demo_open (mode : Z) : kstate :=
  snd (alloc_file (demo_ctx 100%nat) demo_path mode (Some demo_fops)
         (demo_state NR_FILE)).

(** The system after one bare [get_empty_filp]. *)
Definition demo_filp : kstate :=
  snd (get_empty_filp (demo_ctx 100%nat) (demo_state NR_FILE)).

(** Two unprivileged acquisitions under a ceiling of two. *)
Definition demo_two_files : kstate :=
  snd (get_empty_filp (demo_ctx 101%nat)
         (snd (get_empty_filp (demo_ctx 100%nat) (demo_state 2)))).

(** A system at its ceiling of 32 files, all of them counted by the
    approximate read, that has not reported the limit yet. *)
Definition demo_full : kstate :=
  mk_kstate (fun _ => file_zero) (fun _ => demo_inode) (fun _ => mk_dentry 10%nat)
            (fun _ => 0) (fun _ => 1) (PercpuCounter.mk 32 ∅) 32 32 0 [] [].

(** ** More of file_table.c: [files_init] *)

(** Modelled from the spec: [PAGE_SHIFT] (arch/arm/include/asm/page.h) is
    not under src/, and the spec names no page size; the value is the one
    of that header, the 4K page of the 32-bit ARM target. *)
Definition PAGE_SHIFT : Z := 12.
Definition PAGE_SIZE : Z := 2 ^ PAGE_SHIFT.

Definition set_max_files (v : Z) (s : kstate) : kstate :=
  mk_kstate (k_files s) (k_inodes s) (k_dentries s) (k_mnt_writers s)
            (k_cred_usage s) (nr_files s) (percpu_counter_batch s) v
            (old_max s) (k_rcu s) (k_trace s).

(** [files_init(mempages)]: one file is very roughly 1K, and the files get
    at most 10% of the memory, in [unsigned long] arithmetic; the ceiling is
    never set below [NR_FILE]; the counter starts at 0.  The creation of
    the slab cache and [files_defer_init] act on state that is not
    modelled. *)
Definition files_init (mempages : Z) (s : kstate) : kstate :=
  let n := to_ulong (to_ulong mempages * (PAGE_SIZE / 1024)) / 10 in
  let s := set_max_files (Z.max n NR_FILE) s in
  set_nr_files (PercpuCounter.init 0) s.

(** ** A caller: [cachefiles_write_page] (fs/cachefiles/rdwr.c) *)

Module Cachefiles.

Definition ENOBUFS : Z := 105.
Definition EIO : Z := 5.
Definition ENFILE : Z := 23.
Definition O_RDWR : Z := 2.

Definition S_ISREG (m : Z) : bool := Z.land m S_IFMT =? S_IFREG.

(** The calls that [cachefiles_write_page] makes, in program order. *)
Inductive cf_event :=
  | CFdentry_open (mnt dentry : ptr) (flags : Z) (cred : ptr)
  | CFkmap (page : ptr)
  | CFset_fs_kernel
  | CFwrite (file : ptr) (len pos : Z)
  | CFset_fs_old
  | CFkunmap (page : ptr)
  | CFfput (file : ptr)
  | CFio_error.

Global Instance cf_event_eq_dec : EqDecision cf_event.
Proof. solve_decision. Defined.

(** The fields of the cache object, the cache and the page that the
    function reads: [object->backer], [object->fscache.store_limit_l],
    [cache->mnt], [cache->cache_cred] and [page->index]. *)
Record cachefiles_object := mk_object { backer : ptr; store_limit_l : Z }.
Record cachefiles_cache := mk_cache { cache_mnt : ptr; cache_cred : ptr }.
Record page := mk_page { page_addr : ptr; page_index : Z }.

(** The collaborators of the call: [dentry_open] (an error code or a
    file), whether the operation table of a file has a [write] callback,
    what that callback does and returns, and the context in which [fput]
    runs. *)
Record cf_env := mk_env {
  dentry_open : path -> Z -> ptr -> kstate -> (Z + ptr) * kstate;
  has_write : kstate -> ptr -> bool;
  f_op_write : ptr -> Z -> Z -> kstate -> Z * kstate;
  fput_ctx : ctx
}.

(** [pos = (loff_t)page->index << PAGE_SHIFT]: the index is an
    [unsigned long], the position has 64 bits. *)
Definition page_pos (pg : page) : Z :=
  Z.shiftl (to_ulong (page_index pg)) PAGE_SHIFT.

(** [len]: a whole page, or what is left up to [eof] on a partial page;
    [None] where [ASSERTCMP(pos + len, ==, eof)] fails. *)
Definition write_len (pos eof : Z) : option Z :=
  if nonzero (Z.land eof (PAGE_SIZE - 1))
  then if eof - pos <? PAGE_SIZE
       then let len := to_ulong (eof - pos) in
            if pos + len =? eof then Some len else None
       else Some PAGE_SIZE
  else Some PAGE_SIZE.

(** [error_2:] and [error:], entered with [ret]. *)
Definition cf_error_2 (ret : Z) (tr : list cf_event) (s : kstate)
    : Z * list cf_event * kstate :=
  (- ENOBUFS, (if ret =? - EIO then tr ++ [CFio_error] else tr), s).

(** The result is the return value, the calls made and the state; it is
    [None] where an assertion of the function fails ([ASSERT] and
    [ASSERTCMP] of fs/cachefiles/internal.h end in [BUG()]).  [op] is the
    first pointer of the call, [object] and [cache] are what the function
    reaches from it; the second pointer is the address of [pg]. *)
Definition cachefiles_write_page (env : cf_env) (op : ptr)
    (object : cachefiles_object) (cache : cachefiles_cache) (pg : page)
    (s : kstate) : option (Z * list cf_event * kstate) :=
  if Nat.eqb op NULL then None
  else if Nat.eqb (page_addr pg) NULL then None
  else if Nat.eqb (backer object) NULL then Some (- ENOBUFS, [], s)
  else if negb (S_ISREG (i_mode (k_inodes s (d_inode (k_dentries s (backer object))))))
  then None
  else
    let pos := page_pos pg in
    let eof := store_limit_l object in
    if pos >=? eof then Some (- ENOBUFS, [], s)
    else
      let pa := mk_path (cache_mnt cache) (backer object) in
      let tr := [CFdentry_open (cache_mnt cache) (backer object) O_RDWR
                   (cache_cred cache)] in
      match dentry_open env pa O_RDWR (cache_cred cache) s with
      | (inl err, s) => Some (cf_error_2 err tr s)
      | (inr file, s) =>
        if negb (has_write env s file) then Some (cf_error_2 (- EIO) tr s)
        else
          match write_len pos eof with
          | None => None
          | Some len =>
            let tr := tr ++ [CFkmap (page_addr pg); CFset_fs_kernel] in
            let (r, s) := f_op_write env file len pos s in
            let ret := to_int r in
            let tr := tr ++ [CFwrite file len pos; CFset_fs_old;
                             CFkunmap (page_addr pg)] in
            let s := fput (fput_ctx env) file s in
            let tr := tr ++ [CFfput file] in
            if negb (to_ulong ret =? len)
            then Some (cf_error_2 (- EIO) tr s)
            else Some (0, tr, s)
          end
      end.

Definition is_write (e : cf_event) : bool :=
  match e with CFwrite _ _ _ => true | _ => false end.
Definition is_fput_call (e : cf_event) : bool :=
  match e with CFfput _ => true | _ => false end.

(** An environment to run the function in: [dentry_open] makes the file
    with [alloc_file], the file has a [write] callback, and the callback
    writes all it is given. *)
Definition demo_opener : ctx :=
  mk_ctx 0%nat 2%nat (fun _ => false) (Some 1%nat) 0 (fun _ => 0).

Definition demo_env : cf_env :=
  mk_env
    (fun pa _ _ s =>
       match alloc_file demo_opener pa (Z.lor FMODE_READ FMODE_WRITE)
               (Some demo_fops) s with
       | (Some f, s) => (inr f, s)
       | (None, s) => (inl (- ENFILE), s)
       end)
    (fun _ _ => true)
    (fun _ len _ s => (len, s))
    demo_opener.

(** A cache object of 10000 bytes, and its third page. *)
Definition demo_op : ptr := 6%nat.
Definition demo_object : cachefiles_object := mk_object 4%nat 10000.
Definition demo_cache : cachefiles_cache := mk_cache 3%nat 2%nat.
Definition demo_page : page := mk_page 5%nat 2.

(** The backing file as [dentry_open] leaves it, and the system after the
    page has been written. *)
Definition demo_backing : kstate :=
  snd (alloc_file demo_opener (mk_path 3%nat 4%nat) 3 (Some demo_fops)
         (demo_state NR_FILE)).
Definition demo_written : kstate := fput demo_opener 1%nat demo_backing.
Definition demo_calls : list cf_event :=
  [CFdentry_open 3%nat 4%nat O_RDWR 2%nat; CFkmap 5%nat; CFset_fs_kernel;
   CFwrite 1%nat 1808 8192; CFset_fs_old; CFkunmap 5%nat; CFfput 1%nat].

End Cachefiles.

(** ** Allocation, seen from the proofs *)

(** The calls of a [get_empty_filp] that succeeds. *)
Definition get_empty_filp_calls (f cred : ptr) : list event :=
  [Ekmem_cache_zalloc f; Epercpu_counter_inc; Eget_cred cred;
   Esecurity_file_alloc f; Erwlock_init f; Espin_lock_init f;
   Eeventpoll_init_file f].

(** What [alloc_file] does with the object that [get_empty_filp] gave. *)
Definition alloc_file_init (c : ctx) (pa : path) (mode : Z)
    (fop : option file_operations) (file : ptr) (s : kstate) : kstate :=
  let inode := d_inode (k_dentries s (path_dentry pa)) in
  let s := upd_file file (set_f_path pa) s in
  let s := upd_file file (set_f_inode inode) s in
  let s := upd_file file (set_f_mapping (i_mapping (k_inodes s inode))) s in
  let s := upd_file file (set_f_mode mode) s in
  let s := upd_file file (set_f_op fop) s in
  let s := if nonzero (Z.land mode FMODE_WRITE)
              && negb (special_file (i_mode (k_inodes s inode)))
           then
             let s := file_take_write file s in
             let (r, s) := mnt_clone_write c (path_mnt pa) s in
             if nonzero r then emit Ewarn s else s
           else s in
  let s := if Z.land mode (Z.lor FMODE_READ FMODE_WRITE) =? FMODE_READ
           then i_readcount_inc inode s
           else s in
  s.

(** The two guards of [alloc_file], which are those of the teardown. *)
Definition takes_write (mode : Z) (i : inode) : bool :=
  nonzero (Z.land mode FMODE_WRITE) && negb (special_file (i_mode i)).
Definition reads_only (mode : Z) : bool :=
  Z.land mode (Z.lor FMODE_READ FMODE_WRITE) =? FMODE_READ.

(** The inode behind a path. *)
Definition path_inode (pa : path) (s : kstate) : ptr :=
  d_inode (k_dentries s (path_dentry pa)).

(** The mount refuses the write access that [alloc_file] asks for. *)
Definition refused (c : ctx) (pa : path) : bool :=
  nonzero (mnt_clone_write_result c (path_mnt pa)).

(** The calls that [alloc_file] adds to those of [get_empty_filp]: the
    claims, and the warning about a mount that refuses. *)
Definition alloc_file_claims (c : ctx) (pa : path) (mode : Z) (s : kstate)
    : list event :=
  (if takes_write mode (k_inodes s (path_inode pa s))
   then Emnt_clone_write (path_mnt pa) :: (if refused c pa then [Ewarn] else [])
   else [])
  ++ (if reads_only mode then [Ei_readcount_inc (path_inode pa s)] else []).

Definition is_warn (e : event) : bool :=
  match e with Ewarn => true | _ => false end.

Definition INT_MIN : Z := - 2 ^ 31.
Definition INT_MAX : Z := 2 ^ 31 - 1.

(** The teardown gives the mount-writable claim back. *)
Definition drops_mount_claim (file : ptr) (s : kstate) : bool :=
  nonzero (Z.land (f_mode (k_files s file)) FMODE_WRITE)
  && negb (special_file (i_mode (k_inodes s (the_inode file s))))
  && (f_mnt_write_state (k_files s file) =? FILE_MNT_WRITE_TAKEN).

(** * Proofs *)

(** ** Machine integers: ranges and bits *)

Lemma to_long_small z : LONG_MIN <= z <= LONG_MAX -> to_long z = z.
Proof.
  unfold to_long, wrap_signed, LONG_MIN, LONG_MAX, BITS_PER_LONG.
  change (2 ^ (32 - 1)) with 2147483648. change (2 ^ 32) with 4294967296.
  intros H. rewrite Z.mod_small; lia.
Qed.

Lemma to_long_overflow : to_long (LONG_MAX + 1) = LONG_MIN.
Proof. reflexivity. Qed.

Lemma mode_read_xor_write m :
  (Z.land m (Z.lor FMODE_READ FMODE_WRITE) =? FMODE_READ) = true ->
  nonzero (Z.land m FMODE_WRITE) = false.
Proof.
  intros H. apply Z.eqb_eq in H.
  assert (Z.land m FMODE_WRITE
          = Z.land (Z.land m (Z.lor FMODE_READ FMODE_WRITE)) FMODE_WRITE) as ->.
  { by rewrite <- Z.land_assoc. }
  by rewrite H.
Qed.

(** ** The counter: the exact sum follows every increment and decrement *)

Section Counter.
Import PercpuCounter.

Lemma shard_total_insert (m : gmap nat Z) (i : nat) (v : Z) :
  shard_total (<[i := v]> m) = shard_total m - default 0 (m !! i) + v.
Proof.
  unfold shard_total.
  destruct (m !! i) as [x|] eqn:Hi; cbn.
  - rewrite <- insert_delete_eq.
    rewrite map_fold_insert_L; [| intros; lia | apply lookup_delete_eq].
    rewrite (map_fold_delete_L _ _ i x m); [lia | intros; lia | done].
  - rewrite map_fold_insert_L; [lia | intros; lia | done].
Qed.

Lemma sum_add fbc cpu a b : sum (add fbc cpu a b) = sum fbc + a.
Proof.
  unfold sum, add, this_cpu_read.
  destruct (_ || _); cbn; rewrite shard_total_insert; lia.
Qed.

Lemma sum_inc fbc cpu b : sum (inc fbc cpu b) = sum fbc + 1.
Proof. apply sum_add. Qed.

Lemma sum_dec fbc cpu b : sum (dec fbc cpu b) = sum fbc - 1.
Proof. unfold dec. rewrite sum_add. lia. Qed.

Lemma sum_dec_inc fbc cpu cpu' b b' : sum (dec (inc fbc cpu b) cpu' b') = sum fbc.
Proof. rewrite sum_dec, sum_inc. lia. Qed.

End Counter.


(** ** Symbolic execution

    A statement applied to an explicit state record is an explicit state
    record.  The code is run by rewriting, innermost statement first, and a
    case split is made at every condition that the run meets. *)

Lemma nonzero_EINVAL : nonzero (- EINVAL) = true.
Proof. reflexivity. Qed.

Lemma file_check_state_eq p s :
  file_check_state p s
  = set_trace (k_trace s ++ check_state_calls (f_mnt_write_state (k_files s p))) s.
Proof.
  destruct s. unfold file_check_state, check_state_calls, emit. cbn.
  repeat (destruct (_ =? _); cbn); rewrite <- ?app_assoc, ?app_nil_r; reflexivity.
Qed.

Lemma drop_file_write_access_eq file s :
  drop_file_write_access file s
  = if special_file (i_mode (k_inodes s (the_inode file s)))
    then put_write_access (the_inode file s) s
    else if f_mnt_write_state (k_files s file) =? FILE_MNT_WRITE_TAKEN
         then file_release_write file
                (mnt_drop_write (path_mnt (f_path (k_files s file)))
                   (put_write_access (the_inode file s) s))
         else emit Ewarn (put_write_access (the_inode file s) s).
Proof.
  unfold drop_file_write_access, the_inode, file_check_writeable.
  destruct s as [F I D M C N B X O R T]. cbn.
  rewrite fn_lookup_insert. cbn.
  destruct (special_file _); [done|].
  by destruct (_ =? FILE_MNT_WRITE_TAKEN).
Qed.

Lemma field_write_state_set_f_inode v f :
  f_mnt_write_state (set_f_inode v f) = f_mnt_write_state f.
Proof. reflexivity. Qed.
Lemma field_write_state_set_f_path v f :
  f_mnt_write_state (set_f_path v f) = f_mnt_write_state f.
Proof. reflexivity. Qed.
Lemma field_write_state_set v f :
  f_mnt_write_state (set_f_mnt_write_state v f) = v.
Proof. reflexivity. Qed.
Lemma field_i_mode_set_i_readcount v n : i_mode (set_i_readcount v n) = i_mode n.
Proof. reflexivity. Qed.
Lemma field_i_mode_set_i_writecount v n : i_mode (set_i_writecount v n) = i_mode n.
Proof. reflexivity. Qed.

Section OnRecords.

Variables (F : ptr -> file) (I : ptr -> inode) (D : ptr -> dentry)
  (M C : ptr -> Z) (N : PercpuCounter.t) (B X O : Z) (R : list ptr)
  (T : list event).

Local Abbreviation rec := (mk_kstate F I D M C N B X O R T).

Lemma rec_k_files : k_files rec = F.
Proof. reflexivity. Qed.
Lemma rec_k_inodes : k_inodes rec = I.
Proof. reflexivity. Qed.
Lemma rec_k_dentries : k_dentries rec = D.
Proof. reflexivity. Qed.
Lemma rec_k_mnt_writers : k_mnt_writers rec = M.
Proof. reflexivity. Qed.
Lemma rec_k_cred_usage : k_cred_usage rec = C.
Proof. reflexivity. Qed.
Lemma rec_nr_files : nr_files rec = N.
Proof. reflexivity. Qed.
Lemma rec_percpu_counter_batch : percpu_counter_batch rec = B.
Proof. reflexivity. Qed.
Lemma rec_max_files : max_files rec = X.
Proof. reflexivity. Qed.
Lemma rec_old_max : old_max rec = O.
Proof. reflexivity. Qed.
Lemma rec_k_rcu : k_rcu rec = R.
Proof. reflexivity. Qed.
Lemma rec_k_trace : k_trace rec = T.
Proof. reflexivity. Qed.

Lemma rec_emit e :
  emit e rec
  = mk_kstate F I D M C N B X O R (T ++ [e]).
Proof. reflexivity. Qed.
Lemma rec_set_trace t :
  set_trace t rec
  = mk_kstate F I D M C N B X O R (t).
Proof. reflexivity. Qed.
Lemma rec_set_nr_files n :
  set_nr_files n rec
  = mk_kstate F I D M C (n) B X O R T.
Proof. reflexivity. Qed.
Lemma rec_upd_file p g :
  upd_file p g rec
  = mk_kstate (<[p := g (F p)]> F) I D M C N B X O R T.
Proof. reflexivity. Qed.
Lemma rec_i_readcount_dec i :
  i_readcount_dec i rec
  = mk_kstate F (<[i := set_i_readcount (to_int (i_readcount (I i) - 1)) (I i)]> I) D M C N B X O R (T ++ [Ei_readcount_dec i]).
Proof. reflexivity. Qed.
Lemma rec_put_write_access i :
  put_write_access i rec
  = mk_kstate F (<[i := set_i_writecount (to_int (i_writecount (I i) - 1)) (I i)]> I) D M C N B X O R (T ++ [Eput_write_access i]).
Proof. reflexivity. Qed.
Lemma rec_mnt_drop_write m :
  mnt_drop_write m rec
  = mk_kstate F I D (<[m := M m - 1]> M) C N B X O R (T ++ [Emnt_drop_write m]).
Proof. reflexivity. Qed.
Lemma rec_file_release_write p :
  file_release_write p rec
  = mk_kstate (<[p := set_f_mnt_write_state (Z.lor (f_mnt_write_state (F p)) FILE_MNT_WRITE_RELEASED) (F p)]> F) I D M C N B X O R T.
Proof. reflexivity. Qed.
Lemma rec_call_rcu p :
  call_rcu p rec
  = mk_kstate F I D M C N B X O (R ++ [p]) (T ++ [Ecall_rcu p]).
Proof. reflexivity. Qed.
Lemma rec_fput_put_pid p :
  fput_put_pid p rec
  = mk_kstate F I D M C N B X O R (T ++ [Eput_pid (f_owner_pid (F p))]).
Proof. reflexivity. Qed.
Lemma rec_put_cred p :
  put_cred p rec
  = mk_kstate F I D M (<[p := C p - 1]> C) N B X O R (T ++ [Eput_cred p]).
Proof. reflexivity. Qed.
Lemma rec_get_cred p :
  get_cred p rec
  = mk_kstate F I D M (<[p := C p + 1]> C) N B X O R (T ++ [Eget_cred p]).
Proof. reflexivity. Qed.
Lemma rec_percpu_counter_inc c :
  percpu_counter_inc c rec
  = mk_kstate F I D M C (PercpuCounter.inc N (cpu c) B) B X O R (T ++ [Epercpu_counter_inc]).
Proof. reflexivity. Qed.
Lemma rec_percpu_counter_dec c :
  percpu_counter_dec c rec
  = mk_kstate F I D M C (PercpuCounter.dec N (cpu c) B) B X O R (T ++ [Epercpu_counter_dec]).
Proof. reflexivity. Qed.

Lemma rec_when b k : when b k rec = if b rec then k rec else rec.
Proof. reflexivity. Qed.

Lemma rec_fput_fops_put p :
  fput_fops_put p rec
  = match f_op (F p) with
    | Some o => mk_kstate F I D M C N B X O R (T ++ [Emodule_put (fop_owner o)])
    | None => rec
    end.
Proof. unfold fput_fops_put, fops_put. cbn [k_files]. destruct (f_op (F p)); reflexivity. Qed.

Lemma rec_file_free c p :
  file_free c p rec
  = mk_kstate F I D M C (PercpuCounter.dec N (cpu c) B) B X O (R ++ [p])
      (T ++ file_free_calls p (f_mnt_write_state (F p))).
Proof.
  unfold file_free, file_free_calls. cbv zeta.
  rewrite file_check_state_eq.
  unfold call_rcu, percpu_counter_dec, emit. cbn.
  by rewrite <- !app_assoc.
Qed.

Lemma rec_drop_file_write_access p :
  drop_file_write_access p rec
  = if special_file (i_mode (I (d_inode (D (path_dentry (f_path (F p)))))))
    then put_write_access (d_inode (D (path_dentry (f_path (F p))))) rec
    else if f_mnt_write_state (F p) =? FILE_MNT_WRITE_TAKEN
         then file_release_write p
                (mnt_drop_write (path_mnt (f_path (F p)))
                   (put_write_access (d_inode (D (path_dentry (f_path (F p))))) rec))
         else emit Ewarn
                (put_write_access (d_inode (D (path_dentry (f_path (F p))))) rec).
Proof. apply drop_file_write_access_eq. Qed.

End OnRecords.

Create Rewrite HintDb krec.
#[global] Hint Rewrite rec_k_files rec_k_inodes rec_k_dentries
  rec_k_mnt_writers rec_k_cred_usage rec_nr_files rec_percpu_counter_batch
  rec_max_files rec_old_max rec_k_rcu rec_k_trace rec_emit rec_set_trace
  rec_set_nr_files rec_upd_file rec_i_readcount_dec rec_put_write_access
  rec_mnt_drop_write rec_file_release_write rec_call_rcu rec_fput_put_pid
  rec_put_cred rec_get_cred rec_percpu_counter_inc rec_percpu_counter_dec
  rec_when rec_fput_fops_put rec_file_free
  rec_drop_file_write_access @fn_lookup_insert
  field_write_state_set_f_inode field_write_state_set_f_path
  field_write_state_set field_i_mode_set_i_readcount
  field_i_mode_set_i_writecount : krec.

(** A condition that decides between two states. *)
Ltac split_cond :=
  match goal with
  | |- context [if ?c then ?a else _] =>
      lazymatch a with context [mk_kstate] => destruct c eqn:? end
  | |- context [match ?d with Some _ => _ | None => ?a end] =>
      lazymatch a with context [mk_kstate] => destruct d eqn:? end
  end.

Ltac exec :=
  repeat first
    [ progress autorewrite with krec
    | progress cbv beta
    | split_cond ].

(** ** [__fput], phase by phase *)

Lemma __fput_phases c file s :
  __fput c file s
  = fput_tail c file (path_dentry (f_path (k_files s file)))
      (path_mnt (f_path (k_files s file)))
      (fput_claims file (the_inode file s) (fput_head file (the_inode file s) s)).
Proof.
  unfold __fput, fput_tail, fput_claims, fput_head, the_inode. cbv zeta. reflexivity.
Qed.

Lemma fput_head_eq file s :
  fput_head file (the_inode file s) s
  = set_trace (k_trace s ++ head_calls file s) s.
Proof.
  destruct s as [F I D M C N B X O R T].
  unfold head_calls, fasync_calls, release_calls, cdev_calls, fops_calls.
  unfold the_inode, fput_head. cbv zeta.
  exec.
  all: unfold set_trace; autorewrite with krec; rewrite <- ?app_assoc; reflexivity.
Qed.

Lemma fput_claims_spec file t s :
  let s' := fput_claims file (the_inode file s) (set_trace t s) in
  k_trace s' = t ++ readcount_calls file s ++ write_calls file s
  /\ k_files s' file
     = set_f_mnt_write_state (write_state_after_teardown file s) (k_files s file)
  /\ (forall q, file <> q -> k_files s' q = k_files s q)
  /\ nr_files s' = nr_files s
  /\ percpu_counter_batch s' = percpu_counter_batch s
  /\ k_rcu s' = k_rcu s
  /\ k_cred_usage s' = k_cred_usage s.
Proof.
  destruct s as [F I D M C N B X O R T].
  unfold readcount_calls, write_calls, drop_calls, write_state_after_teardown,
    write_state_after_drop.
  unfold the_inode, fput_claims. cbv zeta.
  exec.
  all: repeat split; try (intros q Hq); autorewrite with krec;
    rewrite <- ?app_assoc, ?app_nil_r; try reflexivity.
  all: rewrite ?fn_lookup_insert_ne by done; try reflexivity.
  all: by destruct (F file).
Qed.

Lemma fput_tail_spec c file d m s :
  let s' := fput_tail c file d m s in
  k_trace s'
  = k_trace s ++ store_calls file
    ++ file_free_calls file (f_mnt_write_state (k_files s file))
    ++ [Edput d; Emntput m]
  /\ k_files s' file
     = set_f_inode NULL (set_f_path (mk_path NULL NULL) (k_files s file))
  /\ (forall q, file <> q -> k_files s' q = k_files s q)
  /\ nr_files s' = PercpuCounter.dec (nr_files s) (cpu c) (percpu_counter_batch s)
  /\ k_rcu s' = k_rcu s ++ [file]
  /\ k_cred_usage s' = k_cred_usage s.
Proof.
  destruct s as [F I D M C N B X O R T].
  unfold store_calls, fput_tail. cbv zeta.
  exec.
  repeat split; try (intros q Hq); autorewrite with krec;
    rewrite <- ?app_assoc; try reflexivity.
  by rewrite !fn_lookup_insert_ne by done.
Qed.

Lemma __fput_spec c file s :
  k_trace (__fput c file s) = k_trace s ++ __fput_calls file s
  /\ k_files (__fput c file s) file = torn_down file s
  /\ (forall q, file <> q -> k_files (__fput c file s) q = k_files s q)
  /\ nr_files (__fput c file s)
     = PercpuCounter.dec (nr_files s) (cpu c) (percpu_counter_batch s)
  /\ k_rcu (__fput c file s) = k_rcu s ++ [file]
  /\ k_cred_usage (__fput c file s) = k_cred_usage s.
Proof.
  rewrite __fput_phases, fput_head_eq.
  pose proof (fput_claims_spec file (k_trace s ++ head_calls file s) s) as HC.
  cbv zeta in HC.
  destruct HC as (Ht & Hf & Hq & Hn & Hb & Hr & Hc).
  match goal with |- context [fput_tail ?c ?f ?d ?m ?x] =>
    pose proof (fput_tail_spec c f d m x) as HT end.
  cbv zeta in HT.
  destruct HT as (Ht' & Hf' & Hq' & Hn' & Hr' & Hc').
  rewrite Ht', Hf', Hn', Hr', Hc', Ht, Hf, Hn, Hb, Hr, Hc.
  repeat split.
  - unfold __fput_calls, teardown_middle, teardown_tail, head_calls.
    rewrite <- !app_assoc. reflexivity.
  - intros q Hne. by rewrite Hq', Hq.
Qed.

(** ** Kinds of the calls of a teardown *)

Ltac unfold_pieces :=
  unfold __fput_calls, head_calls, teardown_middle, teardown_tail, store_calls,
    fasync_calls, release_calls, cdev_calls, fops_calls, readcount_calls,
    write_calls, drop_calls, file_free_calls, check_state_calls,
    file_free_rcu_calls.

(** A property of every call of a list made of fixed and optional parts. *)
Ltac forall_calls :=
  unfold_pieces;
  repeat first
    [ apply Forall_nil_2
    | apply Forall_cons_2
    | apply Forall_app_2
    | case_match ];
  try done.

Lemma count_occ_none (l : list event) (x : event) :
  Forall (fun e => e <> x) l -> count_occ event_eq_dec l x = 0%nat.
Proof.
  induction 1 as [|e l He _ IH]; [done|].
  cbn. by destruct (event_eq_dec e x).
Qed.

Lemma __fput_calls_start file s :
  exists rest,
    __fput_calls file s = Efsnotify_close file :: rest
    /\ Forall (fun e => e <> Efsnotify_close file) rest.
Proof.
  eexists. split; [reflexivity|]. forall_calls.
Qed.

Lemma __fput_calls_no_reclaim file s :
  Forall (fun e => reclaim_event e = false) (__fput_calls file s).
Proof. forall_calls. Qed.

Lemma file_free_calls_kind f st :
  Forall (fun e => teardown_step e = false /\ reclaim_event e = false)
    (file_free_calls f st).
Proof. forall_calls. Qed.

(** ** [fput], [put_filp], [get_file] *)

Lemma fput_eq c file s :
  fput c file s
  = if dec_count file s =? 0
    then __fput c file (upd_file file (set_f_count (dec_count file s)) s)
    else upd_file file (set_f_count (dec_count file s)) s.
Proof. unfold fput, atomic_long_dec_and_test, dec_count. reflexivity. Qed.

Lemma put_filp_eq c file s :
  put_filp c file s
  = if dec_count file s =? 0
    then file_free c file
           (emit (Esecurity_file_free file)
              (upd_file file (set_f_count (dec_count file s)) s))
    else upd_file file (set_f_count (dec_count file s)) s.
Proof. unfold put_filp, atomic_long_dec_and_test, dec_count. reflexivity. Qed.

(** The calls of a teardown do not depend on the reference count. *)
Lemma __fput_calls_count file v s :
  __fput_calls file (upd_file file (set_f_count v) s) = __fput_calls file s.
Proof.
  destruct s as [F I D M C N B X O R T].
  unfold_pieces. unfold write_state_after_teardown, write_state_after_drop, the_inode.
  autorewrite with krec. reflexivity.
Qed.

Lemma upd_file_same p g s : k_files (upd_file p g s) p = g (k_files s p).
Proof. unfold upd_file. cbn. apply fn_lookup_insert. Qed.

Lemma upd_file_other p q g s : p <> q -> k_files (upd_file p g s) q = k_files s q.
Proof. intros. unfold upd_file. cbn. by apply fn_lookup_insert_ne. Qed.

Lemma fput_last_trace c file s :
  dec_count file s = 0 ->
  k_trace (fput c file s) = k_trace s ++ __fput_calls file s.
Proof.
  intros H. rewrite fput_eq, H. cbn [Z.eqb].
  destruct (__fput_spec c file (upd_file file (set_f_count 0) s)) as (-> & _).
  by rewrite __fput_calls_count.
Qed.

Lemma fput_last_count c file s :
  dec_count file s = 0 -> f_count (k_files (fput c file s) file) = 0.
Proof.
  intros H. rewrite fput_eq, H. cbn [Z.eqb].
  destruct (__fput_spec c file (upd_file file (set_f_count 0) s)) as (_ & -> & _).
  unfold torn_down. rewrite upd_file_same. reflexivity.
Qed.

Lemma fput_held_trace c file s :
  dec_count file s <> 0 -> k_trace (fput c file s) = k_trace s.
Proof.
  intros H. rewrite fput_eq. apply Z.eqb_neq in H. by rewrite H.
Qed.

Lemma fput_held_count c file s :
  dec_count file s <> 0 ->
  f_count (k_files (fput c file s) file) = dec_count file s.
Proof.
  intros H. rewrite fput_eq. apply Z.eqb_neq in H. rewrite H.
  by rewrite upd_file_same.
Qed.

Lemma get_file_trace file s : k_trace (get_file file s) = k_trace s.
Proof. reflexivity. Qed.

Lemma get_file_count file s :
  f_count (k_files (get_file file s) file)
  = to_long (f_count (k_files s file) + 1).
Proof. unfold get_file. by rewrite upd_file_same. Qed.

(** ** Sequences of calls by reference holders *)

Lemma teardowns_fput_last c file s :
  dec_count file s = 0 ->
  teardowns file (fput c file s) = S (teardowns file s).
Proof.
  intros H. unfold teardowns. rewrite (fput_last_trace _ _ _ H), count_occ_app.
  destruct (__fput_calls_start file s) as (rest & -> & Hrest).
  rewrite count_occ_cons_eq by reflexivity.
  rewrite (count_occ_none rest (Efsnotify_close file) Hrest). lia.
Qed.

Lemma teardowns_fput_held c file s :
  dec_count file s <> 0 -> teardowns file (fput c file s) = teardowns file s.
Proof. intros H. unfold teardowns. by rewrite fput_held_trace. Qed.

Lemma teardowns_get_file file s :
  teardowns file (get_file file s) = teardowns file s.
Proof. reflexivity. Qed.

(** One call: the teardown runs on it exactly when the call is an [fput]
    whose decrement leaves a count of 0. *)
Lemma do_call_teardowns file k s :
  teardowns file (do_call file k s)
  = (teardowns file s
     + if is_fput k && (f_count (k_files (do_call file k s) file) =? 0)%Z
       then 1 else 0)%nat.
Proof.
  destruct k as [|c]; cbn [do_call is_fput andb].
  - unfold teardowns. rewrite get_file_trace. lia.
  - destruct (Z.eq_dec (dec_count file s) 0) as [H|H].
    + rewrite teardowns_fput_last, fput_last_count by done. cbn. lia.
    + rewrite teardowns_fput_held, fput_held_count by done.
      apply Z.eqb_neq in H. rewrite H. lia.
Qed.

Lemma count_in_range file s :
  0 < f_count (k_files s file) <= LONG_MAX ->
  dec_count file s = f_count (k_files s file) - 1.
Proof.
  intros H. unfold dec_count. apply to_long_small.
  unfold LONG_MIN, LONG_MAX, BITS_PER_LONG in *; lia.
Qed.

Lemma run_teardowns file ks : forall s,
  0 < f_count (k_files s file) <= LONG_MAX ->
  holds_reference file ks s = true ->
  teardowns file (run file ks s)
  = (teardowns file s
     + if (f_count (k_files s file) + retains ks =? releases ks)%Z
       then 1 else 0)%nat.
Proof.
  induction ks as [|k ks IH]; intros s Hn Hh.
  - cbn [run retains releases].
    destruct (Z.eqb_spec (f_count (k_files s file) + 0) 0); lia.
  - cbn [holds_reference] in Hh. apply andb_true_iff in Hh as [_ Hh].
    destruct k as [|c]; cbn [run do_call retains releases] in *.
    + (* get_file *)
      destruct (decide (f_count (k_files s file) = LONG_MAX)) as [Hmax|Hmax].
      * (* the count wraps: nobody holds a reference afterwards *)
        assert (f_count (k_files (get_file file s) file) = LONG_MIN) as Hc.
        { rewrite get_file_count, Hmax. apply to_long_overflow. }
        destruct ks as [|k' ks'].
        -- cbn [run retains releases]. rewrite teardowns_get_file.
           destruct (Z.eqb_spec (f_count (k_files s file) + (1 + 0)) 0); lia.
        -- cbn [holds_reference] in Hh. rewrite Hc in Hh. discriminate.
      * assert (f_count (k_files (get_file file s) file)
                = f_count (k_files s file) + 1) as Hc.
        { rewrite get_file_count. apply to_long_small.
          unfold LONG_MIN, LONG_MAX, BITS_PER_LONG in *; lia. }
        rewrite IH; [| rewrite Hc; lia | done].
        rewrite Hc, teardowns_get_file.
        replace (f_count (k_files s file) + 1 + retains ks)
          with (f_count (k_files s file) + (1 + retains ks)) by lia.
        reflexivity.
    + (* fput *)
      pose proof (count_in_range file s Hn) as Hd.
      destruct (decide (f_count (k_files s file) = 1)) as [H1|H1].
      * (* the last reference *)
        assert (dec_count file s = 0) as H0 by lia.
        destruct ks as [|k' ks'].
        -- cbn [run retains releases]. rewrite teardowns_fput_last by done.
           rewrite H1. destruct (Z.eqb_spec (1 + 0) (1 + 0)); lia.
        -- cbn [holds_reference] in Hh.
           rewrite (fput_last_count _ _ _ H0) in Hh. discriminate.
      * assert (dec_count file s <> 0) as H0 by lia.
        rewrite IH; [| rewrite fput_held_count by done; lia | done].
        rewrite fput_held_count, teardowns_fput_held by done.
        rewrite Hd.
        destruct (Z.eqb_spec (f_count (k_files s file) - 1 + retains ks) (releases ks)),
          (Z.eqb_spec (f_count (k_files s file) + retains ks) (1 + releases ks));
          lia.
Qed.

(** C1. Refcount conservation: on an object created with a count of 1,
    along every sequence of [get_file] and [fput] calls made by holders of
    a reference, the teardown runs once if the releases balance the
    acquisition plus the retains, and not at all otherwise; and at every
    call of the sequence it runs exactly when the call is an [fput] whose
    decrement leaves a count of 0. *)
Theorem refcount_conservation (file : ptr) (ks : list call) (s : kstate) :
  f_count (k_files s file) = 1 ->
  holds_reference file ks s = true ->
  teardowns file (run file ks s)
  = (teardowns file s + if (releases ks =? 1 + retains ks)%Z then 1 else 0)%nat
  /\ forall pre k post,
       ks = pre ++ k :: post ->
       teardowns file (do_call file k (run file pre s))
       = (teardowns file (run file pre s)
          + if is_fput k
               && (f_count (k_files (do_call file k (run file pre s)) file) =? 0)%Z
            then 1 else 0)%nat.
Proof.
  intros H1 Hh. split.
  - rewrite run_teardowns; [| rewrite H1; unfold LONG_MAX, BITS_PER_LONG; lia | done].
    rewrite H1, (Z.eqb_sym (releases ks)). reflexivity.
  - intros pre k post _. apply do_call_teardowns.
Qed.

Lemma refcount_conservation_witness :
  teardowns 100%nat
    (run 100%nat [Cget_file; Cfput (demo_ctx 100%nat); Cfput (demo_ctx 100%nat)]
       (demo_open 3))
  = 1%nat.
Proof.
  destruct (refcount_conservation 100%nat
              [Cget_file; Cfput (demo_ctx 100%nat); Cfput (demo_ctx 100%nat)]
              (demo_open 3)) as [H _].
  - vm_compute. reflexivity.
  - vm_compute. reflexivity.
  - rewrite H. vm_compute. reflexivity.
Defined.

(** ** [file_free], [file_free_rcu] and the end of a grace period *)

Lemma file_free_spec c f s :
  k_trace (file_free c f s)
  = k_trace s ++ file_free_calls f (f_mnt_write_state (k_files s f))
  /\ k_files (file_free c f s) = k_files s
  /\ k_cred_usage (file_free c f s) = k_cred_usage s
  /\ k_rcu (file_free c f s) = k_rcu s ++ [f]
  /\ nr_files (file_free c f s)
     = PercpuCounter.dec (nr_files s) (cpu c) (percpu_counter_batch s).
Proof.
  destruct s as [F I D M C N B X O R T].
  rewrite rec_file_free. by autorewrite with krec.
Qed.

Lemma file_free_rcu_spec f s :
  k_trace (file_free_rcu f s) = k_trace s ++ file_free_rcu_calls s f
  /\ k_files (file_free_rcu f s) = k_files s
  /\ nr_files (file_free_rcu f s) = nr_files s
  /\ k_rcu (file_free_rcu f s) = k_rcu s
  /\ k_cred_usage (file_free_rcu f s) (f_cred (k_files s f))
     = k_cred_usage s (f_cred (k_files s f)) - 1.
Proof.
  destruct s as [F I D M C N B X O R T].
  unfold file_free_rcu, file_free_rcu_calls. cbv zeta.
  autorewrite with krec. rewrite <- app_assoc. done.
Qed.

Lemma run_callbacks_spec (l : list ptr) : forall s,
  let s' := fold_left (fun s f => file_free_rcu f s) l s in
  k_trace s' = k_trace s ++ flat_map (file_free_rcu_calls s) l
  /\ k_files s' = k_files s
  /\ nr_files s' = nr_files s.
Proof.
  induction l as [|f l IH]; intros s; cbn [fold_left flat_map].
  - by rewrite app_nil_r.
  - destruct (IH (file_free_rcu f s)) as (Ht & Hf & Hn).
    destruct (file_free_rcu_spec f s) as (Ht' & Hf' & Hn' & _).
    cbv zeta. rewrite Ht, Hf, Hn, Ht', Hf', Hn', <- app_assoc.
    repeat split; try reflexivity.
Qed.

Lemma rcu_do_batch_spec s :
  k_trace (rcu_do_batch s) = k_trace s ++ flat_map (file_free_rcu_calls s) (k_rcu s)
  /\ k_files (rcu_do_batch s) = k_files s
  /\ nr_files (rcu_do_batch s) = nr_files s.
Proof.
  unfold rcu_do_batch.
  destruct (run_callbacks_spec (k_rcu s) (set_rcu [] s)) as (Ht & Hf & Hn).
  cbv zeta in *. rewrite Ht, Hf, Hn. by destruct s.
Qed.



(** C8. The credentials of an object are released by the deferred callback
    only.  A teardown leaves every credential count and the object's
    [f_cred] as they are and makes no reclamation call, although its
    security and integrity hooks run; the release of the credentials is
    the first thing the callback does, after the grace period, behind all
    the calls of the teardown. *)
Theorem credentials_outlive_teardown (c : ctx) (file : ptr) (s : kstate) :
  k_cred_usage (__fput c file s) = k_cred_usage s
  /\ f_cred (k_files (__fput c file s) file) = f_cred (k_files s file)
  /\ k_trace (__fput c file s) = k_trace s ++ __fput_calls file s
  /\ Forall (fun e => reclaim_event e = false) (__fput_calls file s)
  /\ (exists before after,
        __fput_calls file s
        = before ++ Esecurity_file_free file :: Eima_file_free file :: after)
  /\ k_trace (rcu_do_batch (__fput c file s))
     = k_trace s ++ __fput_calls file s
       ++ flat_map (file_free_rcu_calls (__fput c file s)) (k_rcu s)
       ++ [Eput_cred (f_cred (k_files s file)); Ekmem_cache_free file]
  /\ k_cred_usage (file_free_rcu file (__fput c file s)) (f_cred (k_files s file))
     = k_cred_usage s (f_cred (k_files s file)) - 1.
Proof.
  destruct (__fput_spec c file s) as (Ht & Hf & _ & _ & Hr & Hc).
  assert (f_cred (k_files (__fput c file s) file) = f_cred (k_files s file)) as Hcred.
  { rewrite Hf. reflexivity. }
  split; [done|]. split; [done|]. split; [done|].
  split; [apply __fput_calls_no_reclaim|].
  split.
  { exists ([Efsnotify_close file; Eeventpoll_release file; Elocks_remove_file file]
            ++ fasync_calls file s ++ release_calls file s).
    eexists. unfold __fput_calls, teardown_middle.
    rewrite <- !app_assoc. reflexivity. }
  split.
  - destruct (rcu_do_batch_spec (__fput c file s)) as (-> & _).
    rewrite Ht, Hr, flat_map_app, <- !app_assoc. cbn [flat_map app].
    unfold file_free_rcu_calls at 2. by rewrite Hcred.
  - destruct (file_free_rcu_spec file (__fput c file s)) as (_ & _ & _ & _ & Hu).
    rewrite Hcred in Hu. by rewrite Hu, Hc.
Qed.

(** ** [put_filp] *)

Lemma put_filp_last c file s :
  dec_count file s = 0 ->
  k_trace (put_filp c file s)
  = k_trace s ++ Esecurity_file_free file
      :: file_free_calls file (f_mnt_write_state (k_files s file))
  /\ k_files (put_filp c file s) file = set_f_count 0 (k_files s file)
  /\ k_rcu (put_filp c file s) = k_rcu s ++ [file]
  /\ k_cred_usage (put_filp c file s) = k_cred_usage s
  /\ nr_files (put_filp c file s)
     = PercpuCounter.dec (nr_files s) (cpu c) (percpu_counter_batch s).
Proof.
  intros H. rewrite put_filp_eq, H. cbn [Z.eqb].
  destruct s as [F I D M C N B X O R T].
  autorewrite with krec. rewrite <- app_assoc. done.
Qed.

(** C10, as the code has it.  When its decrement reaches 0, [put_filp]
    makes one call of the teardown sequencer, the security hook, and then
    what [file_free] does: it decrements the live count and queues the
    object for deferred reclamation.  No credential is released and no
    memory returned when [put_filp] returns; both happen in the deferred
    callback. *)
Theorem put_filp_release (c : ctx) (file : ptr) (s : kstate) :
  dec_count file s = 0 ->
  k_trace (put_filp c file s)
  = k_trace s ++ Esecurity_file_free file
      :: file_free_calls file (f_mnt_write_state (k_files s file))
  /\ Forall (fun e => teardown_step e = false /\ reclaim_event e = false)
       (file_free_calls file (f_mnt_write_state (k_files s file)))
  /\ k_rcu (put_filp c file s) = k_rcu s ++ [file]
  /\ k_cred_usage (put_filp c file s) = k_cred_usage s
  /\ PercpuCounter.sum (nr_files (put_filp c file s))
     = PercpuCounter.sum (nr_files s) - 1
  /\ k_trace (file_free_rcu file (put_filp c file s))
     = k_trace (put_filp c file s)
       ++ [Eput_cred (f_cred (k_files s file)); Ekmem_cache_free file].
Proof.
  intros H.
  destruct (put_filp_last c file s H) as (Ht & Hf & Hr & Hc & Hn).
  repeat split; try done.
  - apply file_free_calls_kind.
  - rewrite Hn. apply sum_dec.
  - destruct (file_free_rcu_spec file (put_filp c file s)) as (-> & _).
    unfold file_free_rcu_calls. by rewrite Hf.
Qed.

Lemma put_filp_release_witness :
  k_rcu (put_filp (demo_ctx 100%nat) 100%nat demo_filp) = [100%nat].
Proof.
  destruct (put_filp_release (demo_ctx 100%nat) 100%nat demo_filp)
    as (_ & _ & H & _).
  - vm_compute. reflexivity.
  - rewrite H. vm_compute. reflexivity.
Defined.

(** C10, as stated, fails: when [put_filp] returns from dropping the only
    reference of a fresh object, the credentials are still held and the
    memory has not gone back to the pool; the object waits in the queue of
    deferred callbacks. *)
Lemma put_filp_defers_reclamation :
  dec_count 100%nat demo_filp = 0
  /\ f_cred (k_files demo_filp 100%nat) = 7%nat
  /\ k_cred_usage (put_filp (demo_ctx 100%nat) 100%nat demo_filp) 7%nat
     = k_cred_usage demo_filp 7%nat
  /\ Forall (fun e => reclaim_event e = false)
       (k_trace (put_filp (demo_ctx 100%nat) 100%nat demo_filp))
  /\ k_rcu (put_filp (demo_ctx 100%nat) 100%nat demo_filp) = [100%nat].
Proof.
  do 3 (split; [vm_compute; reflexivity|]).
  split; [|vm_compute; reflexivity].
  vm_compute. repeat constructor.
Qed.

(** C3. [fput] decrements the count.  If the result is not 0, nothing
    else changes: the trace, the counters, the queue and every other object
    are as before, and the object differs in its count only.  If the result
    is 0, [fput] is [__fput] on the calling context: the whole sequence of
    teardown calls runs, ending in the decrement of the live count and
    [call_rcu], followed by the release of the dentry and the mount; the
    object is queued and no reclamation call has been made. *)
Theorem fput_release (c : ctx) (file : ptr) (s : kstate) :
  (dec_count file s <> 0 ->
   fput c file s = upd_file file (set_f_count (dec_count file s)) s
   /\ k_trace (fput c file s) = k_trace s
   /\ k_files (fput c file s) file = set_f_count (dec_count file s) (k_files s file)
   /\ (forall q, file <> q -> k_files (fput c file s) q = k_files s q)
   /\ k_inodes (fput c file s) = k_inodes s
   /\ k_mnt_writers (fput c file s) = k_mnt_writers s
   /\ k_cred_usage (fput c file s) = k_cred_usage s
   /\ nr_files (fput c file s) = nr_files s
   /\ k_rcu (fput c file s) = k_rcu s)
  /\ (dec_count file s = 0 ->
      fput c file s = __fput c file (snd (atomic_long_dec_and_test file s))
      /\ k_trace (fput c file s)
         = k_trace s ++ head_calls file s
           ++ readcount_calls file s ++ write_calls file s
           ++ store_calls file
           ++ file_free_calls file (write_state_after_teardown file s)
           ++ [Edput (path_dentry (f_path (k_files s file)));
               Emntput (path_mnt (f_path (k_files s file)))]
      /\ Forall (fun e => reclaim_event e = false) (__fput_calls file s)
      /\ k_rcu (fput c file s) = k_rcu s ++ [file]).
Proof.
  split; intros H.
  - rewrite fput_eq. apply Z.eqb_neq in H. rewrite H.
    repeat split; try reflexivity.
    + apply upd_file_same.
    + intros q Hq. by apply upd_file_other.
  - split.
    { unfold fput, atomic_long_dec_and_test. fold (dec_count file s).
      rewrite H. reflexivity. }
    split.
    { rewrite (fput_last_trace _ _ _ H).
      unfold __fput_calls, head_calls, teardown_middle, teardown_tail.
      by rewrite <- !app_assoc. }
    split; [apply __fput_calls_no_reclaim|].
    rewrite fput_eq, H. cbn [Z.eqb].
    by destruct (__fput_spec c file (upd_file file (set_f_count 0) s))
      as (_ & _ & _ & _ & -> & _).
Qed.

Lemma fput_release_witness :
  k_trace (fput (demo_ctx 100%nat) 100%nat (get_file 100%nat (demo_open 3)))
  = k_trace (get_file 100%nat (demo_open 3))
  /\ k_rcu (fput (demo_ctx 100%nat) 100%nat (demo_open 3)) = [100%nat].
Proof.
  split.
  - destruct (fput_release (demo_ctx 100%nat) 100%nat
                (get_file 100%nat (demo_open 3))) as [H _].
    apply H. vm_compute. discriminate.
  - destruct (fput_release (demo_ctx 100%nat) 100%nat (demo_open 3)) as [_ H].
    destruct H as (_ & _ & _ & H); [vm_compute; reflexivity|].
    rewrite H. vm_compute. reflexivity.
Defined.

(** C4. In every teardown, [eventpoll_release] is called before the
    async-signal deregistration [fasync(-1, file, 0)], which is called
    (when the flag and the callback are there) before the three stores that
    clear the resource association; none of these steps occurs anywhere
    else in the teardown, and the fields are NULL afterwards. *)
Theorem teardown_ordering (c : ctx) (file : ptr) (s : kstate) :
  exists mid tail,
    k_trace (__fput c file s)
    = k_trace s
      ++ [Efsnotify_close file; Eeventpoll_release file; Elocks_remove_file file]
      ++ fasync_calls file s
      ++ mid
      ++ [Estore_dentry_null file; Estore_mnt_null file; Estore_inode_null file]
      ++ tail
    /\ Forall (fun e => ordered_step e = false) (mid ++ tail)
    /\ fasync_calls file s
       = (if nonzero (Z.land (f_flags (k_files s file)) FASYNC)
             && has_fasync (f_op (k_files s file))
          then [Efasync (-1) file 0] else [])
    /\ f_path (k_files (__fput c file s) file) = mk_path NULL NULL
    /\ f_inode (k_files (__fput c file s) file) = NULL.
Proof.
  exists (teardown_middle file s), (teardown_tail file s).
  destruct (__fput_spec c file s) as (Ht & Hf & _).
  rewrite Ht, Hf.
  split; [reflexivity|].
  split; [forall_calls|].
  split; [|split; reflexivity].
  unfold fasync_calls. by destruct (nonzero _), (has_fasync _).
Qed.

(** ** The claims on the resource *)

Lemma no_readcount_dec file s :
  (Z.land (f_mode (k_files s file)) (Z.lor FMODE_READ FMODE_WRITE) =? FMODE_READ)
  = false ->
  Forall (fun e => is_i_readcount_dec e = false) (__fput_calls file s).
Proof. intros H. unfold_pieces. rewrite H. forall_calls. Qed.

Lemma no_write_access_drop file s :
  nonzero (Z.land (f_mode (k_files s file)) FMODE_WRITE) = false ->
  Forall (fun e => is_put_write_access e = false) (__fput_calls file s).
Proof. intros H. unfold_pieces. rewrite H. forall_calls. Qed.

Lemma never_both_claims file s :
  ~ write_drop_then_readcount (__fput_calls file s).
Proof.
  intros (l1 & i & l2 & j & l3 & E).
  destruct (Z.land (f_mode (k_files s file)) (Z.lor FMODE_READ FMODE_WRITE)
            =? FMODE_READ) eqn:Hr.
  - pose proof (no_write_access_drop file s (mode_read_xor_write _ Hr)) as HF.
    rewrite E in HF. apply Forall_app in HF as [_ HF].
    apply Forall_inv in HF. discriminate HF.
  - pose proof (no_readcount_dec file s Hr) as HF.
    rewrite E in HF. apply Forall_app in HF as [_ HF].
    apply Forall_inv_tail in HF. apply Forall_app in HF as [_ HF].
    apply Forall_inv in HF. discriminate HF.
Qed.

Lemma both_claims_absurd file s (P : Prop) :
  (exists i, In (Eput_write_access i) (__fput_calls file s)) ->
  (exists j, In (Ei_readcount_dec j) (__fput_calls file s)) ->
  P.
Proof.
  intros (i & Hi) (j & Hj).
  destruct (Z.land (f_mode (k_files s file)) (Z.lor FMODE_READ FMODE_WRITE)
            =? FMODE_READ) eqn:Hr.
  - pose proof (no_write_access_drop file s (mode_read_xor_write _ Hr)) as HF.
    rewrite Forall_forall in HF. specialize (HF _ Hi). discriminate HF.
  - pose proof (no_readcount_dec file s Hr) as HF.
    rewrite Forall_forall in HF. specialize (HF _ Hj). discriminate HF.
Qed.


(** ** [drop_file_write_access], twice *)

Lemma released_not_taken st :
  (Z.lor st FILE_MNT_WRITE_RELEASED =? FILE_MNT_WRITE_TAKEN) = false.
Proof.
  apply Z.eqb_neq. intros H.
  assert (Z.testbit (Z.lor st FILE_MNT_WRITE_RELEASED) 1 = true) as Hb.
  { rewrite Z.lor_spec. apply orb_true_r. }
  rewrite H in Hb. discriminate Hb.
Qed.

Lemma field_f_path_set_write_state v f :
  f_path (set_f_mnt_write_state v f) = f_path f.
Proof. reflexivity. Qed.
Lemma field_i_writecount_set v n : i_writecount (set_i_writecount v n) = v.
Proof. reflexivity. Qed.

#[global] Hint Rewrite released_not_taken field_f_path_set_write_state
  field_i_writecount_set : krec.

(** C6, as the code has it.  Of two successive calls of
    [drop_file_write_access] on one object, the second never releases the
    mount-writable claim: it finds the bookkeeping of the object no longer
    in the taken state (or the resource special), so the writer count of
    the mount is what the first call left.  The write-access counter of
    the inode is decremented by each of the two calls. *)
Theorem drop_twice_mount_claim (file : ptr) (s : kstate) :
  k_trace (drop_file_write_access file (drop_file_write_access file s))
  = k_trace s ++ drop_calls file s
    ++ drop_calls file (drop_file_write_access file s)
  /\ Forall (fun e => is_mnt_drop_write e = false)
       (drop_calls file (drop_file_write_access file s))
  /\ k_mnt_writers (drop_file_write_access file (drop_file_write_access file s))
     = k_mnt_writers (drop_file_write_access file s)
  /\ the_inode file (drop_file_write_access file s) = the_inode file s
  /\ i_writecount
       (k_inodes (drop_file_write_access file (drop_file_write_access file s))
          (the_inode file s))
     = to_int (to_int (i_writecount (k_inodes s (the_inode file s)) - 1) - 1).
Proof.
  destruct s as [F I D M C N B X O R T].
  unfold drop_calls, the_inode.
  exec.
  all: try congruence.
  all: rewrite <- ?app_assoc.
  all: repeat split; try reflexivity.
  all: repeat first [ apply Forall_nil_2 | apply Forall_cons_2 ]; reflexivity.
Qed.

(** C6, as stated, fails: a file open for writing on a regular inode whose
    write-access counter is 1; after two calls the counter is -1. *)
Lemma drop_twice_decrements_twice :
  i_writecount (k_inodes (demo_open 3) 10%nat) = 1
  /\ the_inode 100%nat (demo_open 3) = 10%nat
  /\ i_writecount
       (k_inodes (drop_file_write_access 100%nat (demo_open 3)) 10%nat) = 0
  /\ i_writecount
       (k_inodes (drop_file_write_access 100%nat
                    (drop_file_write_access 100%nat (demo_open 3))) 10%nat) = -1.
Proof.
  do 3 (split; [vm_compute; reflexivity|]). vm_compute. reflexivity.
Qed.

(** ** [get_empty_filp] *)

Section OnRecordsMore.
Variables (F : ptr -> file) (I : ptr -> inode) (D : ptr -> dentry)
  (M C : ptr -> Z) (N : PercpuCounter.t) (B X O : Z) (R : list ptr)
  (T : list event).
Local Abbreviation rec := (mk_kstate F I D M C N B X O R T).

Lemma rec_set_old_max v : set_old_max v rec = mk_kstate F I D M C N B X v R T.
Proof. reflexivity. Qed.
Lemma rec_get_nr_files : get_nr_files rec = to_long (PercpuCounter.read_positive N).
Proof. reflexivity. Qed.
Lemma rec_get_max_files : get_max_files rec = X.
Proof. reflexivity. Qed.

End OnRecordsMore.

#[global] Hint Rewrite rec_set_old_max rec_get_nr_files rec_get_max_files : krec.

Lemma field_write_state_set_f_cred v f :
  f_mnt_write_state (set_f_cred v f) = f_mnt_write_state f.
Proof. reflexivity. Qed.
Lemma field_write_state_set_f_count v f :
  f_mnt_write_state (set_f_count v f) = f_mnt_write_state f.
Proof. reflexivity. Qed.
Lemma field_f_count_set v f : f_count (set_f_count v f) = v.
Proof. reflexivity. Qed.

#[global] Hint Rewrite field_write_state_set_f_cred field_write_state_set_f_count
  field_f_count_set : krec.

(** An event list of the trace [T ++ ...], and a property of its events. *)
Ltac new_events :=
  first
    [ exists []; split; [by rewrite app_nil_r | by constructor]
    | eexists; split;
      [ rewrite <- ?app_assoc; reflexivity
      | unfold_pieces;
        repeat first [ apply Forall_nil_2 | apply Forall_cons_2
                     | apply Forall_app_2 | case_match ];
        reflexivity ] ].

Lemma get_empty_filp_failure c s :
  fst (get_empty_filp c s) = None ->
  PercpuCounter.sum (nr_files (snd (get_empty_filp c s)))
  = PercpuCounter.sum (nr_files s)
  /\ exists evs,
       k_trace (snd (get_empty_filp c s)) = k_trace s ++ evs
       /\ Forall (fun e => teardown_step e = false) evs.
Proof.
  destruct s as [F I D M C N B X O R T].
  unfold get_empty_filp. cbv zeta.
  exec.
  all: cbn [fst snd]; autorewrite with krec; intros Hnone; try discriminate Hnone.
  all: rewrite ?sum_dec_inc; (split; [reflexivity|]).
  all: new_events.
Qed.

Lemma get_empty_filp_fails c s :
  kmem_cache_zalloc c = None \/ security_file_alloc c <> 0 ->
  fst (get_empty_filp c s) = None.
Proof.
  intros H. unfold get_empty_filp. cbv zeta.
  destruct (_ && _); [reflexivity|].
  destruct (kmem_cache_zalloc c) as [f|]; [|reflexivity].
  destruct H as [H|H]; [discriminate H|].
  apply Z.eqb_neq in H. unfold nonzero. rewrite H. reflexivity.
Qed.

(** C9. When the pool has no memory or the security module denies the new
    object, [get_empty_filp] returns NULL, the exact live count is what it
    was (the increment made before the security hook is undone by
    [file_free]), and none of the calls made is a step of the teardown
    sequencer. *)
Theorem acquire_failure_rolls_back (c : ctx) (s : kstate) :
  kmem_cache_zalloc c = None \/ security_file_alloc c <> 0 ->
  fst (get_empty_filp c s) = None
  /\ PercpuCounter.sum (nr_files (snd (get_empty_filp c s)))
     = PercpuCounter.sum (nr_files s)
  /\ PercpuCounter.sum_positive (nr_files (snd (get_empty_filp c s)))
     = PercpuCounter.sum_positive (nr_files s)
  /\ exists evs,
       k_trace (snd (get_empty_filp c s)) = k_trace s ++ evs
       /\ Forall (fun e => teardown_step e = false) evs.
Proof.
  intros H. pose proof (get_empty_filp_fails c s H) as Hnone.
  destruct (get_empty_filp_failure c s Hnone) as (Hsum & Hev).
  split; [done|]. split; [done|]. split; [|done].
  unfold PercpuCounter.sum_positive. by rewrite Hsum.
Qed.

Lemma acquire_failure_rolls_back_witness :
  fst (get_empty_filp (demo_denied 100%nat) (demo_state NR_FILE)) = None
  /\ PercpuCounter.sum
       (nr_files (snd (get_empty_filp (demo_denied 100%nat) (demo_state NR_FILE))))
     = PercpuCounter.sum (nr_files (demo_state NR_FILE)).
Proof.
  destruct (acquire_failure_rolls_back (demo_denied 100%nat) (demo_state NR_FILE))
    as (H1 & H2 & _).
  - right. vm_compute. discriminate.
  - split; [exact H1 | exact H2].
Defined.

Lemma over_limit_iff c s :
  over_limit c s = true
  <-> capable c CAP_SYS_ADMIN = false
      /\ max_files s <= to_ulong (get_nr_files s)
      /\ max_files s <= PercpuCounter.sum_positive (nr_files s).
Proof.
  unfold over_limit.
  rewrite !andb_true_iff, negb_true_iff, !Z.geb_le. tauto.
Qed.

(** C2, as the code has it.  [get_empty_filp] jumps to [over] exactly when
    the caller lacks [CAP_SYS_ADMIN] and both the approximate count of the
    fast path and the exact sum are at or above [max_files]; it then
    returns NULL and leaves the counter, the objects and the queue as they
    are.  In every other case (a privileged caller, or an approximate count
    below the ceiling, whatever the exact sum is) the ceiling does not
    reject, and the acquire succeeds when the pool and the security module
    allow it: the object has a count of 1 and the exact sum is one more. *)
Theorem admission_ceiling (c : ctx) (s : kstate) :
  (over_limit c s = true
   <-> capable c CAP_SYS_ADMIN = false
       /\ max_files s <= to_ulong (get_nr_files s)
       /\ max_files s <= PercpuCounter.sum_positive (nr_files s))
  /\ (over_limit c s = true ->
      fst (get_empty_filp c s) = None
      /\ nr_files (snd (get_empty_filp c s)) = nr_files s
      /\ k_files (snd (get_empty_filp c s)) = k_files s
      /\ k_rcu (snd (get_empty_filp c s)) = k_rcu s)
  /\ (over_limit c s = false ->
      forall f,
        kmem_cache_zalloc c = Some f ->
        security_file_alloc c = 0 ->
        fst (get_empty_filp c s) = Some f
        /\ f_count (k_files (snd (get_empty_filp c s)) f) = 1
        /\ PercpuCounter.sum (nr_files (snd (get_empty_filp c s)))
           = PercpuCounter.sum (nr_files s) + 1).
Proof.
  split; [apply over_limit_iff|].
  split; intros H.
  - unfold over_limit in H. unfold get_empty_filp. cbv zeta. rewrite H.
    cbn [fst snd]. by destruct (_ >? _).
  - intros f Hf Hsec. unfold over_limit in H.
    unfold get_empty_filp. cbv zeta. rewrite H, Hf, Hsec.
    change (nonzero 0) with false. cbv iota. cbn [fst snd].
    split; [reflexivity|].
    destruct s as [F I D M C N B X O R T].
    autorewrite with krec. by rewrite sum_inc.
Qed.

Lemma admission_ceiling_witness :
  fst (get_empty_filp (demo_root 102%nat) demo_two_files) = Some 102%nat
  /\ fst (get_empty_filp (demo_ctx 102%nat)
            (snd (get_empty_filp (demo_ctx 101%nat)
                    (snd (get_empty_filp (demo_ctx 100%nat) (demo_state 0))))))
     = None.
Proof.
  split.
  - destruct (admission_ceiling (demo_root 102%nat) demo_two_files)
      as (_ & _ & H).
    apply H; vm_compute; reflexivity.
  - destruct (admission_ceiling (demo_ctx 102%nat)
                (snd (get_empty_filp (demo_ctx 101%nat)
                        (snd (get_empty_filp (demo_ctx 100%nat) (demo_state 0))))))
      as (_ & H & _).
    apply H. vm_compute. reflexivity.
Defined.

(** C2, as stated, fails: under a ceiling of two, after two acquisitions
    the exact live count is at the ceiling, and a third acquisition by an
    unprivileged caller succeeds; the approximate count of the fast path is
    still 0, so that the exact sum is never looked at. *)
Lemma admission_overcommit :
  max_files demo_two_files = 2
  /\ PercpuCounter.sum_positive (nr_files demo_two_files) = 2
  /\ get_nr_files demo_two_files = 0
  /\ capable (demo_ctx 102%nat) CAP_SYS_ADMIN = false
  /\ fst (get_empty_filp (demo_ctx 102%nat) demo_two_files) = Some 102%nat
  /\ PercpuCounter.sum_positive
       (nr_files (snd (get_empty_filp (demo_ctx 102%nat) demo_two_files))) = 3.
Proof.
  do 5 (split; [vm_compute; reflexivity|]). vm_compute. reflexivity.
Qed.

(** * More of file_table.c *)

Section OnRecordsInit.
Variables (F : ptr -> file) (I : ptr -> inode) (D : ptr -> dentry)
  (M C : ptr -> Z) (N : PercpuCounter.t) (B X O : Z) (R : list ptr)
  (T : list event).
Local Abbreviation rec := (mk_kstate F I D M C N B X O R T).

Lemma rec_set_max_files v : set_max_files v rec = mk_kstate F I D M C N B v O R T.
Proof. reflexivity. Qed.
Lemma rec_mnt_clone_write c m :
  mnt_clone_write c m rec
  = if nonzero (mnt_clone_write_result c m)
    then (mnt_clone_write_result c m,
          mk_kstate F I D M C N B X O R (T ++ [Emnt_clone_write m]))
    else (0, mk_kstate F I D (<[m := M m + 1]> M) C N B X O R
               (T ++ [Emnt_clone_write m])).
Proof. unfold mnt_clone_write. cbv zeta. by destruct (nonzero _). Qed.
Lemma rec_warn_on_mnt_clone_write c m :
  (let (r, s) := mnt_clone_write c m rec in if nonzero r then emit Ewarn s else s)
  = if nonzero (mnt_clone_write_result c m)
    then mk_kstate F I D M C N B X O R (T ++ [Emnt_clone_write m; Ewarn])
    else mk_kstate F I D (<[m := M m + 1]> M) C N B X O R
           (T ++ [Emnt_clone_write m]).
Proof.
  rewrite rec_mnt_clone_write.
  destruct (nonzero (mnt_clone_write_result c m)) eqn:E.
  - rewrite E. unfold emit, set_trace. cbn. by rewrite <- app_assoc.
  - reflexivity.
Qed.
Lemma rec_i_readcount_inc i :
  i_readcount_inc i rec
  = mk_kstate F (<[i := set_i_readcount (to_int (i_readcount (I i) + 1)) (I i)]> I)
      D M C N B X O R (T ++ [Ei_readcount_inc i]).
Proof. reflexivity. Qed.
Lemma rec_file_take_write p :
  file_take_write p rec
  = if nonzero (f_mnt_write_state (F p))
    then mk_kstate (<[p := set_f_mnt_write_state FILE_MNT_WRITE_TAKEN (F p)]> F)
           I D M C N B X O R (T ++ [Ewarn])
    else mk_kstate (<[p := set_f_mnt_write_state FILE_MNT_WRITE_TAKEN (F p)]> F)
           I D M C N B X O R T.
Proof.
  unfold file_take_write. cbn [k_files]. cbv zeta.
  destruct (nonzero _); reflexivity.
Qed.

End OnRecordsInit.

#[global] Hint Rewrite rec_set_max_files rec_mnt_clone_write rec_i_readcount_inc
  rec_file_take_write : krec.

(** ** [files_init] *)

Lemma files_init_max_files mempages s :
  max_files (files_init mempages s)
  = Z.max (to_ulong (to_ulong mempages * (PAGE_SIZE / 1024)) / 10) NR_FILE.
Proof. destruct s. reflexivity. Qed.

Lemma files_init_nr_files mempages s :
  nr_files (files_init mempages s) = PercpuCounter.init 0.
Proof. destruct s. reflexivity. Qed.

Lemma to_ulong_range z : 0 <= to_ulong z < 2 ^ 32.
Proof. unfold to_ulong, BITS_PER_LONG. apply Z.mod_pos_bound. lia. Qed.

Lemma to_ulong_small z : 0 <= z < 2 ^ 32 -> to_ulong z = z.
Proof. intros H. unfold to_ulong, BITS_PER_LONG. by apply Z.mod_small. Qed.

(** X1. [files_init] leaves a ceiling that is at least [NR_FILE] and at
    most a tenth of what an [unsigned long] holds, and a counter whose
    exact and approximate values are 0.  Hence no caller is over the limit
    right after it, and the first [get_empty_filp] succeeds whenever the
    pool has memory and the security module allows the object. *)
Theorem files_init_admits (mempages : Z) (s : kstate) :
  NR_FILE <= max_files (files_init mempages s) <= 429496729
  /\ PercpuCounter.sum (nr_files (files_init mempages s)) = 0
  /\ get_nr_files (files_init mempages s) = 0
  /\ (forall c, over_limit c (files_init mempages s) = false)
  /\ (forall c f,
        kmem_cache_zalloc c = Some f ->
        security_file_alloc c = 0 ->
        fst (get_empty_filp c (files_init mempages s)) = Some f).
Proof.
  assert (Hmax : NR_FILE <= max_files (files_init mempages s) <= 429496729).
  { rewrite files_init_max_files.
    pose proof (to_ulong_range (to_ulong mempages * (PAGE_SIZE / 1024))) as Hr.
    assert (to_ulong (to_ulong mempages * (PAGE_SIZE / 1024)) / 10 <= 429496729).
    { apply Z.lt_succ_r. apply Z.div_lt_upper_bound; lia. }
    unfold NR_FILE in *. lia. }
  assert (Hover : forall c, over_limit c (files_init mempages s) = false).
  { intros c. unfold over_limit.
    rewrite files_init_nr_files.
    change (PercpuCounter.sum_positive (PercpuCounter.init 0)) with 0.
    replace (0 >=? max_files (files_init mempages s)) with false.
    - by rewrite andb_false_r.
    - symmetry. rewrite Z.geb_leb. apply Z.leb_gt. unfold NR_FILE in Hmax. lia. }
  split; [exact Hmax|].
  split; [by rewrite files_init_nr_files|].
  split; [unfold get_nr_files; by rewrite files_init_nr_files|].
  split; [exact Hover|].
  intros c f Hf Hsec. specialize (Hover c). unfold over_limit in Hover.
  unfold get_empty_filp. cbv zeta. rewrite Hover, Hf, Hsec. reflexivity.
Qed.

(** X2. As long as [mempages * (PAGE_SIZE / 1024)] fits an
    [unsigned long], the ceiling that [files_init] computes is a tenth of
    the memory in KiB, but no less than [NR_FILE]; from 20480 pages on it
    is the tenth itself; and it grows with the memory. *)
Theorem files_init_tenth_of_memory (mempages mempages' : Z) (s : kstate) :
  0 <= mempages <= mempages' ->
  mempages' * 4 < 2 ^ 32 ->
  max_files (files_init mempages s) = Z.max (mempages * 4 / 10) NR_FILE
  /\ (20480 <= mempages ->
      max_files (files_init mempages s) = mempages * 4 / 10)
  /\ max_files (files_init mempages s) <= max_files (files_init mempages' s).
Proof.
  intros Hle Hfit.
  assert (Hval : forall mp, 0 <= mp <= mempages' ->
            max_files (files_init mp s) = Z.max (mp * 4 / 10) NR_FILE).
  { intros mp Hmp. rewrite files_init_max_files.
    change (PAGE_SIZE / 1024) with 4.
    rewrite (to_ulong_small mp) by lia.
    rewrite to_ulong_small by lia. reflexivity. }
  split; [apply Hval; lia|].
  split.
  - intros Hbig. rewrite Hval by lia.
    apply Z.max_l. unfold NR_FILE.
    apply Z.div_le_lower_bound; lia.
  - rewrite !Hval by lia.
    apply Z.max_le_compat_r. apply Z.div_le_mono; lia.
Qed.

Lemma files_init_tenth_of_memory_witness :
  max_files (files_init 524288 (demo_state 0)) = 209715.
Proof.
  destruct (files_init_tenth_of_memory 524288 524288 (demo_state 0)) as (_ & H & _).
  - lia.
  - vm_compute. reflexivity.
  - apply H. lia.
Defined.

(** ** [get_empty_filp]: success and the [over] path *)

Lemma get_empty_filp_over c s :
  over_limit c s = true ->
  get_empty_filp c s
  = (None, if get_nr_files s >? old_max s
           then set_old_max (get_nr_files s) (emit (Epr_info (get_max_files s)) s)
           else s).
Proof.
  intros H. unfold over_limit in H. unfold get_empty_filp. cbv zeta.
  rewrite H. reflexivity.
Qed.

Lemma get_empty_filp_admitted c s :
  over_limit c s = false ->
  get_empty_filp c s
  = match kmem_cache_zalloc c with
    | None => (None, s)
    | Some f =>
      let s1 := emit (Esecurity_file_alloc f)
                  (upd_file f (set_f_cred (current_cred c))
                     (get_cred (current_cred c)
                        (percpu_counter_inc c
                           (emit (Ekmem_cache_zalloc f)
                              (upd_file f (fun _ => file_zero) s))))) in
      if nonzero (security_file_alloc c)
      then (None, file_free c f s1)
      else (Some f,
            emit (Eeventpoll_init_file f)
              (emit (Espin_lock_init f)
                 (emit (Erwlock_init f) (upd_file f (set_f_count 1) s1))))
    end.
Proof.
  intros H. unfold over_limit in H. unfold get_empty_filp. cbv zeta.
  rewrite H. reflexivity.
Qed.

Lemma get_empty_filp_some c s f :
  fst (get_empty_filp c s) = Some f
  <-> over_limit c s = false
      /\ kmem_cache_zalloc c = Some f
      /\ security_file_alloc c = 0.
Proof.
  destruct (over_limit c s) eqn:Hover.
  - rewrite (get_empty_filp_over _ _ Hover). cbn [fst].
    split; [intros H; discriminate H | intros (H & _); discriminate H].
  - rewrite (get_empty_filp_admitted _ _ Hover). cbv zeta.
    destruct (kmem_cache_zalloc c) as [g|].
    + unfold nonzero. destruct (Z.eqb_spec (security_file_alloc c) 0) as [E|E];
        cbn [negb fst].
      * split; [intros [= ->]; done | intros (_ & [= ->] & _); done].
      * split; [intros H; discriminate H | intros (_ & _ & H); done].
    + cbn [fst]. split; [intros H; discriminate H | intros (_ & H & _); discriminate H].
Qed.

Lemma get_empty_filp_spec c s f :
  fst (get_empty_filp c s) = Some f ->
  let s' := snd (get_empty_filp c s) in
  k_files s' f = set_f_count 1 (set_f_cred (current_cred c) file_zero)
  /\ (forall q, f <> q -> k_files s' q = k_files s q)
  /\ k_trace s' = k_trace s ++ get_empty_filp_calls f (current_cred c)
  /\ k_cred_usage s'
     = <[current_cred c := k_cred_usage s (current_cred c) + 1]> (k_cred_usage s)
  /\ nr_files s'
     = PercpuCounter.inc (nr_files s) (cpu c) (percpu_counter_batch s)
  /\ k_inodes s' = k_inodes s
  /\ k_dentries s' = k_dentries s
  /\ k_mnt_writers s' = k_mnt_writers s
  /\ k_rcu s' = k_rcu s
  /\ max_files s' = max_files s
  /\ old_max s' = old_max s
  /\ percpu_counter_batch s' = percpu_counter_batch s.
Proof.
  intros H. apply get_empty_filp_some in H as (Hover & Hf & Hsec).
  rewrite (get_empty_filp_admitted _ _ Hover), Hf, Hsec. cbv zeta.
  change (nonzero 0) with false. cbv iota. cbn [snd].
  destruct s as [F I D M C N B X O R T].
  autorewrite with krec. unfold get_empty_filp_calls.
  rewrite <- !app_assoc. cbn [app].
  split; [reflexivity|].
  split; [|done].
  intros q Hq. by rewrite !fn_lookup_insert_ne by done.
Qed.

(** X3. [get_empty_filp] returns an object exactly when the caller is
    not over the limit, the pool hands out an object and the security hook
    returns 0.  The object is then the zeroed one with its credential set to
    the caller's and a count of 1; no other object changes; the calls made
    are, in order, the allocation, the increment of the live count,
    [get_cred], the security hook and the three initialisations; the
    credential has one more user, and inodes, dentries, mount writers, the
    queue of deferred callbacks, the ceiling and [old_max] are untouched. *)
Theorem get_empty_filp_success (c : ctx) (s : kstate) (f : ptr) :
  (fst (get_empty_filp c s) = Some f
   <-> over_limit c s = false
       /\ kmem_cache_zalloc c = Some f
       /\ security_file_alloc c = 0)
  /\ (fst (get_empty_filp c s) = Some f ->
      let s' := snd (get_empty_filp c s) in
      k_files s' f = set_f_count 1 (set_f_cred (current_cred c) file_zero)
      /\ (forall q, f <> q -> k_files s' q = k_files s q)
      /\ k_trace s' = k_trace s ++ get_empty_filp_calls f (current_cred c)
      /\ k_cred_usage s'
         = <[current_cred c := k_cred_usage s (current_cred c) + 1]> (k_cred_usage s)
      /\ nr_files s'
         = PercpuCounter.inc (nr_files s) (cpu c) (percpu_counter_batch s)
      /\ k_inodes s' = k_inodes s
      /\ k_dentries s' = k_dentries s
      /\ k_mnt_writers s' = k_mnt_writers s
      /\ k_rcu s' = k_rcu s
      /\ max_files s' = max_files s
      /\ old_max s' = old_max s
      /\ percpu_counter_batch s' = percpu_counter_batch s).
Proof.
  split; [apply get_empty_filp_some | apply get_empty_filp_spec].
Qed.

Lemma get_empty_filp_success_witness :
  k_files (snd (get_empty_filp (demo_ctx 100%nat) (demo_state NR_FILE))) 100%nat
  = set_f_count 1 (set_f_cred 7%nat file_zero).
Proof.
  destruct (get_empty_filp_success (demo_ctx 100%nat) (demo_state NR_FILE) 100%nat)
    as (_ & H).
  destruct H as (H & _).
  - vm_compute. reflexivity.
  - exact H.
Defined.

(** X4. The [over] path reports at most once per level: a rejected
    [get_empty_filp] logs the ceiling exactly when the approximate count is
    above [old_max], and then raises [old_max] to it; the admission test is
    unchanged by the rejection, and a rejected call that follows, by any
    caller, returns NULL and leaves the whole state as it is: nothing is
    logged a second time. *)
Theorem over_path_reports_once (c c' : ctx) (s : kstate) :
  over_limit c s = true ->
  let s1 := snd (get_empty_filp c s) in
  fst (get_empty_filp c s) = None
  /\ k_trace s1
     = k_trace s
       ++ (if get_nr_files s >? old_max s then [Epr_info (max_files s)] else [])
  /\ old_max s1 = Z.max (old_max s) (get_nr_files s)
  /\ over_limit c' s1 = over_limit c' s
  /\ (over_limit c' s1 = true -> get_empty_filp c' s1 = (None, s1)).
Proof.
  intros H. rewrite (get_empty_filp_over _ _ H). cbn [fst snd]. cbv zeta.
  split; [reflexivity|].
  destruct s as [F I D M C N B X O R T].
  autorewrite with krec.
  destruct (Z.gtb_spec (to_long (PercpuCounter.read_positive N)) O) as [Hgt|Hle];
    autorewrite with krec.
  - split; [reflexivity|]. split; [lia|]. split; [reflexivity|].
    intros H'. rewrite (get_empty_filp_over _ _ H'). autorewrite with krec.
    by rewrite Z.gtb_ltb, Z.ltb_irrefl.
  - split; [by rewrite app_nil_r|]. split; [lia|]. split; [reflexivity|].
    intros H'. rewrite (get_empty_filp_over _ _ H'). autorewrite with krec.
    destruct (Z.gtb_spec (to_long (PercpuCounter.read_positive N)) O); [lia|done].
Qed.

Lemma over_path_reports_once_witness :
  k_trace (snd (get_empty_filp (demo_ctx 101%nat) demo_full)) = [Epr_info 32]
  /\ old_max (snd (get_empty_filp (demo_ctx 101%nat) demo_full)) = 32
  /\ k_trace (snd (get_empty_filp (demo_ctx 102%nat)
                     (snd (get_empty_filp (demo_ctx 101%nat) demo_full))))
     = [Epr_info 32].
Proof.
  destruct (over_path_reports_once (demo_ctx 101%nat) (demo_ctx 102%nat) demo_full)
    as (_ & H1 & H2 & _ & H3).
  - vm_compute. reflexivity.
  - cbv zeta in H3.
    split; [etransitivity; [exact H1|]; vm_compute; reflexivity|].
    split; [etransitivity; [exact H2|]; vm_compute; reflexivity|].
    rewrite H3; [|vm_compute; reflexivity].
    cbn [snd]. etransitivity; [exact H1|]. vm_compute. reflexivity.
Defined.

(** ** [alloc_file] *)

Lemma alloc_file_eq c pa mode fop s :
  alloc_file c pa mode fop s
  = match get_empty_filp c s with
    | (None, s1) => (None, s1)
    | (Some file, s1) => (Some file, alloc_file_init c pa mode fop file s1)
    end.
Proof.
  unfold alloc_file, alloc_file_init.
  destruct (get_empty_filp c s) as [[file|] s1]; reflexivity.
Qed.

Lemma alloc_file_init_spec c pa mode fop file s :
  let s' := alloc_file_init c pa mode fop file s in
  let ino := path_inode pa s in
  let takes := takes_write mode (k_inodes s ino) in
  k_files s' file
  = set_f_mnt_write_state
      (if takes then FILE_MNT_WRITE_TAKEN else f_mnt_write_state (k_files s file))
      (set_f_op fop
         (set_f_mode mode
            (set_f_mapping (i_mapping (k_inodes s ino))
               (set_f_inode ino (set_f_path pa (k_files s file))))))
  /\ (forall q, file <> q -> k_files s' q = k_files s q)
  /\ k_trace s'
     = k_trace s
       ++ (if takes && nonzero (f_mnt_write_state (k_files s file))
           then [Ewarn] else [])
       ++ alloc_file_claims c pa mode s
  /\ k_mnt_writers s'
     = (if takes && negb (refused c pa)
        then <[path_mnt pa := k_mnt_writers s (path_mnt pa) + 1]> (k_mnt_writers s)
        else k_mnt_writers s)
  /\ k_inodes s'
     = (if reads_only mode
        then <[ino := set_i_readcount (to_int (i_readcount (k_inodes s ino) + 1))
                        (k_inodes s ino)]> (k_inodes s)
        else k_inodes s)
  /\ k_dentries s' = k_dentries s
  /\ k_cred_usage s' = k_cred_usage s
  /\ nr_files s' = nr_files s
  /\ k_rcu s' = k_rcu s
  /\ max_files s' = max_files s
  /\ old_max s' = old_max s
  /\ percpu_counter_batch s' = percpu_counter_batch s.
Proof.
  destruct s as [F I D M C N B X O R T].
  unfold alloc_file_init, alloc_file_claims, takes_write, reads_only, path_inode,
    refused.
  cbv zeta.
  rewrite !rec_upd_file. cbn [k_inodes k_files k_dentries k_mnt_writers].
  rewrite !fn_lookup_insert.
  destruct (nonzero (Z.land mode FMODE_WRITE)
            && negb (special_file (i_mode (I (d_inode (D (path_dentry pa)))))));
    cbv iota.
  - rewrite rec_file_take_write, !fn_lookup_insert.
    replace (f_mnt_write_state (set_f_op _ _)) with (f_mnt_write_state (F file))
      by (by destruct (F file)).
    destruct (nonzero (f_mnt_write_state (F file)));
      rewrite rec_warn_on_mnt_clone_write;
      destruct (nonzero (mnt_clone_write_result c (path_mnt pa)));
      destruct (Z.land mode _ =? FMODE_READ); rewrite ?rec_i_readcount_inc;
      cbn [k_files k_inodes k_dentries k_mnt_writers k_cred_usage nr_files
           percpu_counter_batch max_files old_max k_rcu k_trace andb negb];
      rewrite ?fn_lookup_insert, <- ?app_assoc, ?app_nil_r.
    all: split; [by destruct (F file)|].
    all: split; [intros q Hq; by rewrite !fn_lookup_insert_ne by done|].
    all: done.
  - destruct (Z.land mode _ =? FMODE_READ); rewrite ?rec_i_readcount_inc;
      cbn [k_files k_inodes k_dentries k_mnt_writers k_cred_usage nr_files
           percpu_counter_batch max_files old_max k_rcu k_trace andb];
      rewrite ?fn_lookup_insert, <- ?app_assoc, ?app_nil_r.
    all: split; [by destruct (F file)|].
    all: split; [intros q Hq; by rewrite !fn_lookup_insert_ne by done|].
    all: done.
Qed.

(** [get_empty_filp] works on the table of objects, the counter and the
    credentials only. *)
Lemma get_empty_filp_frame c s :
  k_inodes (snd (get_empty_filp c s)) = k_inodes s
  /\ k_dentries (snd (get_empty_filp c s)) = k_dentries s
  /\ k_mnt_writers (snd (get_empty_filp c s)) = k_mnt_writers s
  /\ max_files (snd (get_empty_filp c s)) = max_files s
  /\ percpu_counter_batch (snd (get_empty_filp c s)) = percpu_counter_batch s.
Proof.
  destruct s as [F I D M C N B X O R T].
  unfold get_empty_filp. cbv zeta.
  exec.
  all: cbn [fst snd]; autorewrite with krec; done.
Qed.

Lemma alloc_file_some c pa mode fop s f :
  fst (alloc_file c pa mode fop s) = Some f
  <-> fst (get_empty_filp c s) = Some f.
Proof.
  rewrite alloc_file_eq. by destruct (get_empty_filp c s) as [[g|] s1].
Qed.

Lemma alloc_file_snd c pa mode fop s f :
  fst (get_empty_filp c s) = Some f ->
  snd (alloc_file c pa mode fop s)
  = alloc_file_init c pa mode fop f (snd (get_empty_filp c s)).
Proof.
  rewrite alloc_file_eq. destruct (get_empty_filp c s) as [[g|] s1]; cbn [fst snd].
  - by intros [= ->].
  - intros H. discriminate H.
Qed.

Lemma alloc_file_spec c pa mode fop s f :
  fst (alloc_file c pa mode fop s) = Some f ->
  let s' := snd (alloc_file c pa mode fop s) in
  let ino := path_inode pa s in
  let takes := takes_write mode (k_inodes s ino) in
  k_files s' f
  = mk_file pa ino fop 1 0 mode NULL (current_cred c)
      (i_mapping (k_inodes s ino))
      (if takes then FILE_MNT_WRITE_TAKEN else 0)
  /\ (forall q, f <> q -> k_files s' q = k_files s q)
  /\ k_trace s'
     = k_trace s ++ get_empty_filp_calls f (current_cred c)
       ++ alloc_file_claims c pa mode s
  /\ k_mnt_writers s'
     = (if takes && negb (refused c pa)
        then <[path_mnt pa := k_mnt_writers s (path_mnt pa) + 1]> (k_mnt_writers s)
        else k_mnt_writers s)
  /\ k_inodes s'
     = (if reads_only mode
        then <[ino := set_i_readcount (to_int (i_readcount (k_inodes s ino) + 1))
                        (k_inodes s ino)]> (k_inodes s)
        else k_inodes s)
  /\ k_dentries s' = k_dentries s
  /\ k_cred_usage s'
     = <[current_cred c := k_cred_usage s (current_cred c) + 1]> (k_cred_usage s)
  /\ nr_files s'
     = PercpuCounter.inc (nr_files s) (cpu c) (percpu_counter_batch s)
  /\ k_rcu s' = k_rcu s
  /\ percpu_counter_batch s' = percpu_counter_batch s.
Proof.
  intros H. apply alloc_file_some in H.
  rewrite (alloc_file_snd _ _ _ _ _ _ H). cbv zeta.
  pose proof (get_empty_filp_spec c s f H) as Hs. cbv zeta in Hs.
  destruct Hs as (Hf & Hq & Ht & Hc & Hn & Hi & Hd & Hm & Hr & _ & _ & Hb).
  pose proof (alloc_file_init_spec c pa mode fop f (snd (get_empty_filp c s))) as HA.
  cbv zeta in HA.
  destruct HA as (Hf' & Hq' & Ht' & Hm' & Hi' & Hd' & Hc' & Hn' & Hr' & _ & _ & Hb').
  unfold path_inode in *. rewrite Hi, Hd, Hm in *.
  rewrite Hf', Ht', Hm', Hi', Hd', Hc', Hn', Hr', Hb', Hf, Ht, Hc, Hn, Hr, Hb.
  split; [reflexivity|].
  split; [intros q Hne; by rewrite Hq', Hq|].
  split; [|done].
  cbn [f_mnt_write_state set_f_count set_f_cred file_zero].
  change (nonzero 0) with false. rewrite andb_false_r.
  unfold alloc_file_claims, path_inode. rewrite Hi, Hd.
  by rewrite <- !app_assoc.
Qed.

Lemma alloc_file_pool c pa mode fop s f :
  fst (alloc_file c pa mode fop s) = Some f -> kmem_cache_zalloc c = Some f.
Proof.
  intros H. apply alloc_file_some, get_empty_filp_some in H. tauto.
Qed.

Lemma takes_write_not_reads_only mode i :
  takes_write mode i = true -> reads_only mode = false.
Proof.
  unfold takes_write, reads_only. intros Ht1.
  apply andb_true_iff in Ht1 as (Hw & _).
  pose proof (mode_read_xor_write mode) as Hx.
  destruct (Z.land mode (Z.lor FMODE_READ FMODE_WRITE) =? FMODE_READ); [|done].
  rewrite Hx in Hw by reflexivity. discriminate Hw.
Qed.

(** [alloc_file] warns exactly about a mount that refuses the write access
    it asks for. *)
Lemma alloc_file_claims_warn c pa mode s :
  In Ewarn (alloc_file_claims c pa mode s)
  <-> takes_write mode (k_inodes s (path_inode pa s)) = true
      /\ mnt_clone_write_result c (path_mnt pa) <> 0.
Proof.
  unfold alloc_file_claims, refused, nonzero.
  rewrite in_app_iff.
  destruct (takes_write _ _);
    destruct (Z.eqb_spec (mnt_clone_write_result c (path_mnt pa)) 0);
    destruct (reads_only mode); cbn; intuition (try discriminate; try lia).
Qed.

Lemma get_empty_filp_calls_warn f cred :
  ~ In Ewarn (get_empty_filp_calls f cred).
Proof.
  unfold get_empty_filp_calls. cbn. intuition discriminate.
Qed.


(** X5. An [alloc_file] that succeeds returns the object of the pool,
    initialised from its arguments: the path, the inode and the mapping of
    the path's dentry, the mode and the operation table, with a count of 1,
    the caller's credentials, and the write bookkeeping in the taken state
    exactly when the mode has [FMODE_WRITE] and the inode is not a special
    file.  No other object changes, the calls are those of
    [get_empty_filp] followed by the claims, the exact live count is one
    more, and nothing is queued for reclamation. *)
Theorem alloc_file_object (c : ctx) (pa : path) (mode : Z)
    (fop : option file_operations) (s : kstate) (f : ptr) :
  fst (alloc_file c pa mode fop s) = Some f ->
  let s' := snd (alloc_file c pa mode fop s) in
  let ino := path_inode pa s in
  kmem_cache_zalloc c = Some f
  /\ k_files s' f
     = mk_file pa ino fop 1 0 mode NULL (current_cred c)
         (i_mapping (k_inodes s ino))
         (if takes_write mode (k_inodes s ino) then FILE_MNT_WRITE_TAKEN else 0)
  /\ (forall q, f <> q -> k_files s' q = k_files s q)
  /\ k_trace s'
     = k_trace s ++ get_empty_filp_calls f (current_cred c)
       ++ alloc_file_claims c pa mode s
  /\ PercpuCounter.sum (nr_files s') = PercpuCounter.sum (nr_files s) + 1
  /\ k_cred_usage s'
     = <[current_cred c := k_cred_usage s (current_cred c) + 1]> (k_cred_usage s)
  /\ k_rcu s' = k_rcu s.
Proof.
  intros H. cbv zeta.
  pose proof (alloc_file_spec c pa mode fop s f H) as HS. cbv zeta in HS.
  destruct HS as (Hf & Hq & Ht & _ & _ & _ & Hc & Hn & Hr & _).
  split; [by apply alloc_file_pool in H|].
  rewrite Hn, sum_inc. done.
Qed.

Lemma alloc_file_object_witness :
  k_files (demo_open 3) 100%nat
  = mk_file demo_path 10%nat (Some demo_fops) 1 0 3 NULL 7%nat 11%nat
      FILE_MNT_WRITE_TAKEN.
Proof.
  destruct (alloc_file_object (demo_ctx 100%nat) demo_path 3 (Some demo_fops)
              (demo_state NR_FILE) 100%nat) as (_ & H & _).
  - vm_compute. reflexivity.
  - exact H.
Defined.

(** X6. The claims that a successful [alloc_file] takes.  When the mode
    has [FMODE_WRITE] and the inode is not a special file, the object's
    write bookkeeping is set to taken and [mnt_clone_write] is called; the
    writer count of the path's mount goes up by one exactly when that call
    returns 0, and [alloc_file] warns exactly when it returns an error: the
    object is then returned with its bookkeeping taken and no claim on the
    mount.  The read count of the inode goes up by one exactly when the
    mode is read-only, which excludes the first case; other mounts and
    other inodes are untouched, and the write-access counter
    [i_writecount] of no inode changes ([alloc_file] leaves it to its
    caller). *)
Theorem alloc_file_takes_claims (c : ctx) (pa : path) (mode : Z)
    (fop : option file_operations) (s : kstate) (f : ptr) :
  fst (alloc_file c pa mode fop s) = Some f ->
  let s' := snd (alloc_file c pa mode fop s) in
  let ino := path_inode pa s in
  let takes := takes_write mode (k_inodes s ino) in
  k_mnt_writers s' (path_mnt pa)
  = k_mnt_writers s (path_mnt pa)
    + (if takes && (mnt_clone_write_result c (path_mnt pa) =? 0) then 1 else 0)
  /\ (forall m, path_mnt pa <> m -> k_mnt_writers s' m = k_mnt_writers s m)
  /\ f_mnt_write_state (k_files s' f)
     = (if takes then FILE_MNT_WRITE_TAKEN else 0)
  /\ i_readcount (k_inodes s' ino)
     = (if reads_only mode then to_int (i_readcount (k_inodes s ino) + 1)
        else i_readcount (k_inodes s ino))
  /\ (forall i, ino <> i -> k_inodes s' i = k_inodes s i)
  /\ (forall i, i_writecount (k_inodes s' i) = i_writecount (k_inodes s i))
  /\ (takes = true -> reads_only mode = false)
  /\ exists evs,
       k_trace s' = k_trace s ++ evs
       /\ (In (Emnt_clone_write (path_mnt pa)) evs <-> takes = true)
       /\ (In Ewarn evs
           <-> takes = true /\ mnt_clone_write_result c (path_mnt pa) <> 0).
Proof.
  intros H. cbv zeta.
  pose proof (alloc_file_spec c pa mode fop s f H) as HS. cbv zeta in HS.
  destruct HS as (Hf & _ & Ht & Hm & Hi & _).
  rewrite Hf, Ht, Hm, Hi. cbn [f_mnt_write_state].
  set (ino := path_inode pa s).
  set (takes := takes_write mode (k_inodes s ino)).
  assert (Hres : negb (refused c pa) = (mnt_clone_write_result c (path_mnt pa) =? 0)).
  { unfold refused, nonzero. by rewrite negb_involutive. }
  rewrite Hres.
  split; [destruct (takes && _); rewrite ?fn_lookup_insert; lia|].
  split.
  { intros m Hne. destruct (takes && _); [|done].
    by rewrite fn_lookup_insert_ne. }
  split; [reflexivity|].
  split; [destruct (reads_only mode); by rewrite ?fn_lookup_insert|].
  split.
  { intros i Hne. destruct (reads_only mode); [|done].
    by rewrite fn_lookup_insert_ne. }
  split.
  { intros i. destruct (reads_only mode); [|done].
    destruct (decide (ino = i)) as [<-|Hne].
    - by rewrite fn_lookup_insert.
    - by rewrite fn_lookup_insert_ne. }
  split; [apply takes_write_not_reads_only|].
  eexists. split; [reflexivity|].
  rewrite !in_app_iff. split.
  - unfold alloc_file_claims, get_empty_filp_calls. fold ino. fold takes.
    rewrite in_app_iff.
    destruct takes, (refused c pa), (reads_only mode); cbn;
      intuition (try discriminate).
  - pose proof (get_empty_filp_calls_warn f (current_cred c)) as Hno.
    pose proof (alloc_file_claims_warn c pa mode s) as Hiff.
    fold ino in Hiff. fold takes in Hiff. tauto.
Qed.

Lemma alloc_file_takes_claims_witness :
  k_mnt_writers (demo_open 3) 30%nat = 1
  /\ k_mnt_writers
       (snd (alloc_file (demo_readonly 100%nat) demo_path 3 (Some demo_fops)
               (demo_state NR_FILE))) 30%nat = 0
  /\ f_mnt_write_state
       (k_files
          (snd (alloc_file (demo_readonly 100%nat) demo_path 3 (Some demo_fops)
                  (demo_state NR_FILE))) 100%nat) = FILE_MNT_WRITE_TAKEN.
Proof.
  destruct (alloc_file_takes_claims (demo_ctx 100%nat) demo_path 3 (Some demo_fops)
              (demo_state NR_FILE) 100%nat) as (H1 & _).
  { vm_compute. reflexivity. }
  destruct (alloc_file_takes_claims (demo_readonly 100%nat) demo_path 3
              (Some demo_fops) (demo_state NR_FILE) 100%nat) as (H2 & _ & H3 & _).
  { vm_compute. reflexivity. }
  split; [exact H1|]. split; [exact H2 | exact H3].
Defined.

(** X7. [alloc_file] returns NULL exactly when the caller is over the
    limit, the pool is out of memory or the security hook denies the object.
    It then has done what [get_empty_filp] does and nothing more: no inode
    and no mount writer count has changed, the exact live count is what it
    was, and no step of the teardown has run. *)
Theorem alloc_file_failure (c : ctx) (pa : path) (mode : Z)
    (fop : option file_operations) (s : kstate) :
  (fst (alloc_file c pa mode fop s) = None
   <-> over_limit c s = true
       \/ kmem_cache_zalloc c = None
       \/ security_file_alloc c <> 0)
  /\ (fst (alloc_file c pa mode fop s) = None ->
      let s' := snd (alloc_file c pa mode fop s) in
      s' = snd (get_empty_filp c s)
      /\ k_inodes s' = k_inodes s
      /\ k_mnt_writers s' = k_mnt_writers s
      /\ PercpuCounter.sum (nr_files s') = PercpuCounter.sum (nr_files s)
      /\ exists evs,
           k_trace s' = k_trace s ++ evs
           /\ Forall (fun e => teardown_step e = false) evs).
Proof.
  assert (Hnone : fst (alloc_file c pa mode fop s) = None
                  <-> fst (get_empty_filp c s) = None).
  { rewrite alloc_file_eq. by destruct (get_empty_filp c s) as [[g|] s1]. }
  split.
  - rewrite Hnone. split.
    + intros H. destruct (over_limit c s) eqn:Hover; [by left|right].
      destruct (kmem_cache_zalloc c) as [f|] eqn:Hf; [right|by left].
      intros Hsec.
      assert (fst (get_empty_filp c s) = Some f) as Hsome
        by (by apply get_empty_filp_some).
      rewrite H in Hsome. discriminate Hsome.
    + intros H. destruct (fst (get_empty_filp c s)) as [f|] eqn:E; [|done].
      apply get_empty_filp_some in E as (Hover & Hf & Hsec).
      destruct H as [H|[H|H]]; [congruence|congruence|done].
  - intros H. apply Hnone in H. cbv zeta.
    assert (snd (alloc_file c pa mode fop s) = snd (get_empty_filp c s)) as ->.
    { rewrite alloc_file_eq. destruct (get_empty_filp c s) as [[g|] s1];
        [discriminate H|reflexivity]. }
    destruct (get_empty_filp_frame c s) as (Hi & _ & Hm & _).
    destruct (get_empty_filp_failure c s H) as (Hsum & Hev).
    done.
Qed.

Lemma alloc_file_failure_witness :
  k_mnt_writers
    (snd (alloc_file (demo_denied 100%nat) demo_path 3 (Some demo_fops)
            (demo_state NR_FILE)))
  = k_mnt_writers (demo_state NR_FILE).
Proof.
  destruct (alloc_file_failure (demo_denied 100%nat) demo_path 3 (Some demo_fops)
              (demo_state NR_FILE)) as (_ & H).
  destruct H as (_ & _ & H & _).
  - vm_compute. reflexivity.
  - exact H.
Defined.

(** ** What a teardown gives back *)

Lemma fput_claims_resources file t s :
  let s' := fput_claims file (the_inode file s) (set_trace t s) in
  let ino := the_inode file s in
  let mnt := path_mnt (f_path (k_files s file)) in
  k_mnt_writers s' mnt
  = k_mnt_writers s mnt - (if drops_mount_claim file s then 1 else 0)
  /\ (forall m, mnt <> m -> k_mnt_writers s' m = k_mnt_writers s m)
  /\ i_readcount (k_inodes s' ino)
     = (if reads_only (f_mode (k_files s file))
        then to_int (i_readcount (k_inodes s ino) - 1)
        else i_readcount (k_inodes s ino))
  /\ i_writecount (k_inodes s' ino)
     = (if nonzero (Z.land (f_mode (k_files s file)) FMODE_WRITE)
        then to_int (i_writecount (k_inodes s ino) - 1)
        else i_writecount (k_inodes s ino))
  /\ (forall i, ino <> i -> k_inodes s' i = k_inodes s i)
  /\ (forall i, i_mode (k_inodes s' i) = i_mode (k_inodes s i)
                /\ i_cdev (k_inodes s' i) = i_cdev (k_inodes s i)
                /\ i_mapping (k_inodes s' i) = i_mapping (k_inodes s i))
  /\ k_dentries s' = k_dentries s
  /\ max_files s' = max_files s
  /\ old_max s' = old_max s.
Proof.
  destruct s as [F I D M C N B X O R T].
  unfold drops_mount_claim, reads_only.
  unfold the_inode, fput_claims. cbv zeta.
  exec.
  all: cbn [andb negb]; rewrite ?Z.sub_0_r.
  all: split; [rewrite ?fn_lookup_insert; reflexivity|].
  all: split; [intros m Hm; by rewrite ?fn_lookup_insert_ne by done|].
  all: split; [rewrite ?fn_lookup_insert; reflexivity|].
  all: split; [rewrite ?fn_lookup_insert; reflexivity|].
  all: split; [intros i Hi; by rewrite ?fn_lookup_insert_ne by done|].
  all: split; [|done].
  all: intros i; destruct (decide (d_inode (D (path_dentry (f_path (F file)))) = i))
         as [<-|Hne];
       rewrite ?fn_lookup_insert, ?fn_lookup_insert_ne by done; done.
Qed.

Lemma fput_tail_frame c file d m s :
  k_inodes (fput_tail c file d m s) = k_inodes s
  /\ k_mnt_writers (fput_tail c file d m s) = k_mnt_writers s
  /\ k_dentries (fput_tail c file d m s) = k_dentries s
  /\ max_files (fput_tail c file d m s) = max_files s
  /\ old_max (fput_tail c file d m s) = old_max s.
Proof.
  destruct s as [F I D M C N B X O R T].
  unfold fput_tail. cbv zeta. exec. done.
Qed.

Lemma __fput_resources c file s :
  let s' := __fput c file s in
  let ino := the_inode file s in
  let mnt := path_mnt (f_path (k_files s file)) in
  k_mnt_writers s' mnt
  = k_mnt_writers s mnt - (if drops_mount_claim file s then 1 else 0)
  /\ (forall m, mnt <> m -> k_mnt_writers s' m = k_mnt_writers s m)
  /\ i_readcount (k_inodes s' ino)
     = (if reads_only (f_mode (k_files s file))
        then to_int (i_readcount (k_inodes s ino) - 1)
        else i_readcount (k_inodes s ino))
  /\ i_writecount (k_inodes s' ino)
     = (if nonzero (Z.land (f_mode (k_files s file)) FMODE_WRITE)
        then to_int (i_writecount (k_inodes s ino) - 1)
        else i_writecount (k_inodes s ino))
  /\ (forall i, ino <> i -> k_inodes s' i = k_inodes s i)
  /\ (forall i, i_mode (k_inodes s' i) = i_mode (k_inodes s i)
                /\ i_cdev (k_inodes s' i) = i_cdev (k_inodes s i)
                /\ i_mapping (k_inodes s' i) = i_mapping (k_inodes s i))
  /\ k_dentries s' = k_dentries s
  /\ max_files s' = max_files s
  /\ old_max s' = old_max s.
Proof.
  cbv zeta. rewrite __fput_phases, fput_head_eq.
  match goal with |- context [fput_tail ?c ?f ?d ?m ?x] =>
    destruct (fput_tail_frame c f d m x) as (-> & -> & -> & -> & ->) end.
  apply fput_claims_resources.
Qed.

(** The claims of a teardown do not depend on the reference count. *)
Lemma upd_count_frame file v s :
  let s0 := upd_file file (set_f_count v) s in
  k_inodes s0 = k_inodes s
  /\ k_mnt_writers s0 = k_mnt_writers s
  /\ k_dentries s0 = k_dentries s
  /\ max_files s0 = max_files s
  /\ old_max s0 = old_max s
  /\ f_path (k_files s0 file) = f_path (k_files s file)
  /\ f_mode (k_files s0 file) = f_mode (k_files s file)
  /\ f_mnt_write_state (k_files s0 file) = f_mnt_write_state (k_files s file)
  /\ the_inode file s0 = the_inode file s
  /\ drops_mount_claim file s0 = drops_mount_claim file s.
Proof.
  destruct s as [F I D M C N B X O R T].
  unfold drops_mount_claim, the_inode. cbv zeta.
  autorewrite with krec. done.
Qed.

(** X8. What the [fput] that drops the last reference gives back: the
    writer count of the file's mount goes down by one exactly when the mode
    has [FMODE_WRITE], the inode is not a special file and the bookkeeping
    is in the taken state; the read count of the inode goes down by one
    exactly when the mode is read-only; [i_writecount] goes down by one
    exactly when the mode has [FMODE_WRITE]; other mounts and inodes, the
    type, device and mapping of every inode, the dentries, the ceiling and
    [old_max] are untouched. *)
Theorem teardown_gives_back (c : ctx) (file : ptr) (s : kstate) :
  dec_count file s = 0 ->
  let s' := fput c file s in
  let ino := the_inode file s in
  let mnt := path_mnt (f_path (k_files s file)) in
  k_mnt_writers s' mnt
  = k_mnt_writers s mnt - (if drops_mount_claim file s then 1 else 0)
  /\ (forall m, mnt <> m -> k_mnt_writers s' m = k_mnt_writers s m)
  /\ i_readcount (k_inodes s' ino)
     = (if reads_only (f_mode (k_files s file))
        then to_int (i_readcount (k_inodes s ino) - 1)
        else i_readcount (k_inodes s ino))
  /\ i_writecount (k_inodes s' ino)
     = (if nonzero (Z.land (f_mode (k_files s file)) FMODE_WRITE)
        then to_int (i_writecount (k_inodes s ino) - 1)
        else i_writecount (k_inodes s ino))
  /\ (forall i, ino <> i -> k_inodes s' i = k_inodes s i)
  /\ (forall i, i_mode (k_inodes s' i) = i_mode (k_inodes s i)
                /\ i_cdev (k_inodes s' i) = i_cdev (k_inodes s i)
                /\ i_mapping (k_inodes s' i) = i_mapping (k_inodes s i))
  /\ k_dentries s' = k_dentries s
  /\ max_files s' = max_files s
  /\ old_max s' = old_max s.
Proof.
  intros H. cbv zeta. rewrite fput_eq, H. cbn [Z.eqb].
  pose proof (__fput_resources c file (upd_file file (set_f_count 0) s)) as HR.
  pose proof (upd_count_frame file 0 s) as HU.
  cbv zeta in HR, HU.
  destruct HU as (Hi & Hm & Hd & Hx & Ho & Hp & Hmode & Hst & Hino & Hdrop).
  rewrite Hi, Hm, Hd, Hx, Ho, Hp, Hmode, Hino, Hdrop in HR.
  exact HR.
Qed.

Lemma teardown_gives_back_witness :
  k_mnt_writers (fput (demo_ctx 100%nat) 100%nat (demo_open 3)) 30%nat = 0
  /\ i_writecount (k_inodes (fput (demo_ctx 100%nat) 100%nat (demo_open 3)) 10%nat)
     = 0.
Proof.
  destruct (teardown_gives_back (demo_ctx 100%nat) 100%nat (demo_open 3))
    as (H1 & _ & _ & H2 & _).
  - vm_compute. reflexivity.
  - split.
    + etransitivity; [exact H1|]. vm_compute. reflexivity.
    + etransitivity; [exact H2|]. vm_compute. reflexivity.
Defined.

(** ** Warnings of a teardown *)

Lemma existsb_is_warn l : existsb is_warn l = true <-> In Ewarn l.
Proof.
  rewrite existsb_exists. split.
  - intros (e & Hin & He). by destruct e.
  - intros Hin. by exists Ewarn.
Qed.

Lemma __fput_calls_warn file s :
  existsb is_warn (__fput_calls file s)
  = existsb is_warn (write_calls file s)
    || existsb is_warn (check_state_calls (write_state_after_teardown file s)).
Proof.
  assert (existsb is_warn (fasync_calls file s) = false) as H1
    by (unfold fasync_calls; repeat case_match; reflexivity).
  assert (existsb is_warn (release_calls file s) = false) as H2
    by (unfold release_calls; repeat case_match; reflexivity).
  assert (existsb is_warn (cdev_calls file s) = false) as H3
    by (unfold cdev_calls; repeat case_match; reflexivity).
  assert (existsb is_warn (fops_calls file s) = false) as H4
    by (unfold fops_calls; repeat case_match; reflexivity).
  assert (existsb is_warn (readcount_calls file s) = false) as H5
    by (unfold readcount_calls; repeat case_match; reflexivity).
  unfold __fput_calls, teardown_middle, teardown_tail, file_free_calls, store_calls.
  rewrite !existsb_app, H1, H2, H3, H4, H5.
  cbn [existsb is_warn orb]. by rewrite !orb_false_r.
Qed.

Lemma __fput_calls_warn_iff file s :
  let st := f_mnt_write_state (k_files s file) in
  let taken := takes_write (f_mode (k_files s file))
                 (k_inodes s (the_inode file s)) in
  In Ewarn (__fput_calls file s)
  <-> (taken = true /\ st <> FILE_MNT_WRITE_TAKEN)
      \/ (taken = false
          /\ (st = FILE_MNT_WRITE_TAKEN \/ st = FILE_MNT_WRITE_RELEASED)).
Proof.
  cbv zeta.
  rewrite <- existsb_is_warn, __fput_calls_warn.
  unfold write_calls, drop_calls, check_state_calls, write_state_after_teardown,
    write_state_after_drop, takes_write.
  unfold FILE_MNT_WRITE_TAKEN, FILE_MNT_WRITE_RELEASED.
  destruct (nonzero (Z.land (f_mode (k_files s file)) FMODE_WRITE));
    destruct (special_file (i_mode (k_inodes s (the_inode file s))));
    destruct (Z.eqb_spec (f_mnt_write_state (k_files s file)) 1) as [E1|E1];
    rewrite ?E1;
    try destruct (Z.eqb_spec (f_mnt_write_state (k_files s file)) 2) as [E2|E2];
    cbn; intuition (try discriminate; try lia).
Qed.

(** X9. When a teardown warns.  For a file that is open for writing on
    an inode that is not a special file, [__fput] warns exactly when the
    write bookkeeping is not in the taken state: the mount-writable claim
    was never taken, or was given back already.  For every other file it
    warns exactly when the bookkeeping is in the taken or in the released
    state. *)
Theorem teardown_warns (c : ctx) (file : ptr) (s : kstate) :
  let st := f_mnt_write_state (k_files s file) in
  let taken := takes_write (f_mode (k_files s file))
                 (k_inodes s (the_inode file s)) in
  exists evs,
    k_trace (__fput c file s) = k_trace s ++ evs
    /\ (In Ewarn evs
        <-> (taken = true /\ st <> FILE_MNT_WRITE_TAKEN)
            \/ (taken = false
                /\ (st = FILE_MNT_WRITE_TAKEN \/ st = FILE_MNT_WRITE_RELEASED))).
Proof.
  cbv zeta. exists (__fput_calls file s).
  split; [apply __fput_spec | apply __fput_calls_warn_iff].
Qed.

(** ** Open and close *)

Lemma to_int_small z : INT_MIN <= z <= INT_MAX -> to_int z = z.
Proof.
  unfold INT_MIN, INT_MAX, to_int, wrap_signed. intros H.
  change (2 ^ (32 - 1)) with 2147483648. change (2 ^ 32) with 4294967296.
  change (2 ^ 31) with 2147483648 in H.
  rewrite Z.mod_small by lia. lia.
Qed.

Lemma fput_last_eq c file s :
  dec_count file s = 0 ->
  fput c file s = __fput c file (upd_file file (set_f_count 0) s).
Proof. intros H. by rewrite fput_eq, H. Qed.



(** ** Objects that never get a resource *)

(** X11. An object that the security module denies is not lost.  On
    that path [get_empty_filp] returns NULL after [file_free]: the live
    count is decremented again, the object, whose count was never set, is
    queued with [call_rcu] while it still holds the credentials, and its
    deferred callback releases the credentials, which then have the count
    they had before, and returns the memory. *)
Theorem denied_object_is_reclaimed (c : ctx) (s : kstate) (f : ptr) :
  over_limit c s = false ->
  kmem_cache_zalloc c = Some f ->
  security_file_alloc c <> 0 ->
  let s1 := snd (get_empty_filp c s) in
  let cred := current_cred c in
  fst (get_empty_filp c s) = None
  /\ k_trace s1
     = k_trace s ++ [Ekmem_cache_zalloc f; Epercpu_counter_inc; Eget_cred cred;
                     Esecurity_file_alloc f; Epercpu_counter_dec; Ecall_rcu f]
  /\ k_rcu s1 = k_rcu s ++ [f]
  /\ f_count (k_files s1 f) = 0
  /\ k_cred_usage s1 cred = k_cred_usage s cred + 1
  /\ k_trace (file_free_rcu f s1)
     = k_trace s1 ++ [Eput_cred cred; Ekmem_cache_free f]
  /\ k_cred_usage (file_free_rcu f s1) cred = k_cred_usage s cred.
Proof.
  intros Hover Hf Hsec. cbv zeta.
  rewrite (get_empty_filp_admitted _ _ Hover), Hf. cbv zeta.
  apply Z.eqb_neq in Hsec. unfold nonzero. rewrite Hsec. cbn [negb fst snd].
  destruct s as [F I D M C N B X O R T].
  unfold file_free_rcu. cbv zeta.
  autorewrite with krec.
  cbn [f_mnt_write_state f_count f_cred set_f_cred file_zero].
  autorewrite with krec.
  unfold file_free_calls, check_state_calls. cbn [Z.eqb app].
  rewrite <- !app_assoc. cbn [app].
  repeat split; try reflexivity. lia.
Qed.

Lemma denied_object_is_reclaimed_witness :
  k_rcu (snd (get_empty_filp (demo_denied 100%nat) (demo_state NR_FILE)))
  = [100%nat].
Proof.
  destruct (denied_object_is_reclaimed (demo_denied 100%nat) (demo_state NR_FILE)
              100%nat) as (_ & _ & H & _).
  - vm_compute. reflexivity.
  - reflexivity.
  - vm_compute. discriminate.
  - exact H.
Defined.

Lemma put_filp_frame c file s :
  k_inodes (put_filp c file s) = k_inodes s
  /\ k_mnt_writers (put_filp c file s) = k_mnt_writers s
  /\ k_dentries (put_filp c file s) = k_dentries s.
Proof.
  rewrite put_filp_eq. destruct s as [F I D M C N B X O R T].
  destruct (_ =? 0); autorewrite with krec; done.
Qed.

(** X12. [get_empty_filp] and then [put_filp], by any caller: the
    only calls after those of the acquisition are [security_file_free], the
    decrement of the live count and [call_rcu]; the exact live count is
    what it was, the object is queued, no inode and no mount writer count
    has changed, and the deferred callback brings the credentials back to
    the count they had, and returns the memory. *)
Theorem acquire_put_filp_round_trip (c c' : ctx) (s : kstate) (f : ptr) :
  fst (get_empty_filp c s) = Some f ->
  let s1 := put_filp c' f (snd (get_empty_filp c s)) in
  let cred := current_cred c in
  k_trace s1
  = k_trace s ++ get_empty_filp_calls f cred
    ++ [Esecurity_file_free f; Epercpu_counter_dec; Ecall_rcu f]
  /\ PercpuCounter.sum (nr_files s1) = PercpuCounter.sum (nr_files s)
  /\ k_rcu s1 = k_rcu s ++ [f]
  /\ k_inodes s1 = k_inodes s
  /\ k_mnt_writers s1 = k_mnt_writers s
  /\ k_cred_usage s1 cred = k_cred_usage s cred + 1
  /\ k_trace (file_free_rcu f s1)
     = k_trace s1 ++ [Eput_cred cred; Ekmem_cache_free f]
  /\ k_cred_usage (file_free_rcu f s1) cred = k_cred_usage s cred.
Proof.
  intros H. cbv zeta.
  pose proof (get_empty_filp_spec c s f H) as HS. cbv zeta in HS.
  set (s0 := snd (get_empty_filp c s)) in *.
  destruct HS as (Hf & _ & Ht & Hc & Hn & Hi & _ & Hm & Hr & _ & _ & Hb).
  assert (Hdec : dec_count f s0 = 0) by (unfold dec_count; by rewrite Hf).
  destruct (put_filp_last c' f s0 Hdec) as (Ht1 & Hf1 & Hr1 & Hc1 & Hn1).
  destruct (put_filp_frame c' f s0) as (Hi1 & Hm1 & _).
  destruct (file_free_rcu_spec f (put_filp c' f s0)) as (Ht2 & _ & _ & _ & Hu).
  rewrite Hf1, Hf in Hu. cbn [f_cred set_f_count set_f_cred] in Hu.
  rewrite Ht2. unfold file_free_rcu_calls. rewrite Hf1, Hf.
  cbn [f_cred set_f_count set_f_cred].
  rewrite Hu, Ht1, Hr1, Hc1, Hn1, Hi1, Hm1, Hf, Ht, Hc, Hn, Hi, Hm, Hr, Hb.
  cbn [f_mnt_write_state set_f_count set_f_cred file_zero].
  unfold file_free_calls, check_state_calls. cbn [Z.eqb app].
  rewrite fn_lookup_insert, sum_dec_inc, <- !app_assoc.
  repeat split; try reflexivity. lia.
Qed.

Lemma acquire_put_filp_round_trip_witness :
  PercpuCounter.sum (nr_files (put_filp (demo_ctx 100%nat) 100%nat demo_filp)) = 0.
Proof.
  destruct (acquire_put_filp_round_trip (demo_ctx 100%nat) (demo_ctx 100%nat)
              (demo_state NR_FILE) 100%nat) as (_ & H & _).
  - vm_compute. reflexivity.
  - exact H.
Defined.

(** * [cachefiles_write_page], a user of [fput] *)

Import Cachefiles.

Lemma page_pos_eq pg : page_pos pg = to_ulong (page_index pg) * PAGE_SIZE.
Proof. unfold page_pos, PAGE_SIZE, PAGE_SHIFT. by rewrite Z.shiftl_mul_pow2. Qed.

Lemma page_pos_aligned pg : 0 <= page_pos pg /\ page_pos pg mod PAGE_SIZE = 0.
Proof.
  rewrite page_pos_eq. unfold to_ulong, BITS_PER_LONG, PAGE_SIZE, PAGE_SHIFT.
  pose proof (Z.mod_pos_bound (page_index pg) (2 ^ 32)).
  split; [lia|]. by rewrite Z.mod_mul.
Qed.

(** The length that is written, for a page that starts below [eof]. *)
Lemma write_len_spec pos eof :
  0 <= pos -> pos mod PAGE_SIZE = 0 -> pos < eof ->
  exists len,
    write_len pos eof = Some len
    /\ 0 < len <= PAGE_SIZE
    /\ pos + len <= eof
    /\ (len = PAGE_SIZE \/ pos + len = eof)
    /\ (len < PAGE_SIZE -> eof mod PAGE_SIZE <> 0).
Proof.
  intros Hpos Hal Hlt. unfold write_len.
  change (PAGE_SIZE - 1) with (Z.ones 12). rewrite Z.land_ones by lia.
  change (2 ^ 12) with PAGE_SIZE.
  assert (HP : PAGE_SIZE = 4096) by reflexivity.
  unfold nonzero. destruct (Z.eqb_spec (eof mod PAGE_SIZE) 0) as [E|E]; cbn [negb].
  - exists PAGE_SIZE. split; [reflexivity|].
    apply Z.mod_divide in Hal, E; [|lia|lia].
    destruct Hal as [j Hj], E as [k Hk]. nia.
  - destruct (Z.ltb_spec (eof - pos) PAGE_SIZE) as [Hs|Hs].
    + rewrite to_ulong_small by (change (2 ^ 32) with 4294967296; lia).
      replace (pos + (eof - pos)) with eof by lia. rewrite Z.eqb_refl.
      exists (eof - pos). split; [reflexivity|]. lia.
    + exists PAGE_SIZE. split; [reflexivity|]. lia.
Qed.

(** The paths through the function. *)
Lemma cachefiles_write_page_cases env op object cache pg s :
  let pos := page_pos pg in
  let eof := store_limit_l object in
  let pa := mk_path (cache_mnt cache) (backer object) in
  let opened := [CFdentry_open (cache_mnt cache) (backer object) O_RDWR
                   (cache_cred cache)] in
  ((op = NULL \/ page_addr pg = NULL)
   /\ cachefiles_write_page env op object cache pg s = None)
  \/ (op <> NULL /\ page_addr pg <> NULL /\ backer object = NULL
      /\ cachefiles_write_page env op object cache pg s = Some (- ENOBUFS, [], s))
  \/ (op <> NULL /\ page_addr pg <> NULL /\ backer object <> NULL
      /\ S_ISREG (i_mode (k_inodes s (d_inode (k_dentries s (backer object)))))
         = false
      /\ cachefiles_write_page env op object cache pg s = None)
  \/ (op <> NULL /\ page_addr pg <> NULL /\ backer object <> NULL
      /\ S_ISREG (i_mode (k_inodes s (d_inode (k_dentries s (backer object)))))
         = true
      /\ ((eof <= pos
           /\ cachefiles_write_page env op object cache pg s
              = Some (- ENOBUFS, [], s))
          \/ (pos < eof
              /\ ((exists err s1,
                     dentry_open env pa O_RDWR (cache_cred cache) s = (inl err, s1)
                     /\ cachefiles_write_page env op object cache pg s
                        = Some (- ENOBUFS,
                                (if err =? - EIO then opened ++ [CFio_error]
                                 else opened), s1))
                  \/ (exists file s1,
                        dentry_open env pa O_RDWR (cache_cred cache) s
                        = (inr file, s1)
                        /\ has_write env s1 file = false
                        /\ cachefiles_write_page env op object cache pg s
                           = Some (- ENOBUFS, opened ++ [CFio_error], s1))
                  \/ (exists file s1 len r s2,
                        dentry_open env pa O_RDWR (cache_cred cache) s
                        = (inr file, s1)
                        /\ has_write env s1 file = true
                        /\ write_len pos eof = Some len
                        /\ f_op_write env file len pos s1 = (r, s2)
                        /\ cachefiles_write_page env op object cache pg s
                           = Some
                               (if to_ulong (to_int r) =? len then 0 else - ENOBUFS,
                                opened
                                ++ [CFkmap (page_addr pg); CFset_fs_kernel;
                                    CFwrite file len pos; CFset_fs_old;
                                    CFkunmap (page_addr pg); CFfput file]
                                ++ (if to_ulong (to_int r) =? len then []
                                    else [CFio_error]),
                                fput (fput_ctx env) file s2)))))).
Proof.
  cbv zeta. unfold cachefiles_write_page.
  destruct (Nat.eqb_spec op NULL) as [Eop|Eop]; [left; tauto|].
  destruct (Nat.eqb_spec (page_addr pg) NULL) as [Epg|Epg]; [left; tauto|right].
  destruct (Nat.eqb_spec (backer object) NULL) as [E|E]; [by left|right].
  destruct (S_ISREG _); cbn [negb]; [right|by left].
  do 4 (split; [done|]).
  destruct (Z.geb_spec (page_pos pg) (store_limit_l object)) as [Hge|Hlt];
    [left; split; [lia|done]|right].
  split; [lia|].
  destruct (page_pos_aligned pg) as (Hpos & Hal).
  destruct (write_len_spec _ _ Hpos Hal Hlt) as (len & Hlen & _).
  rewrite Hlen.
  destruct (dentry_open env _ O_RDWR (cache_cred cache) s) as [[err|file] s1].
  - left. exists err, s1. split; [done|]. reflexivity.
  - right. destruct (has_write env s1 file) eqn:Hw; cbn [negb].
    + right. destruct (f_op_write env file len (page_pos pg) s1) as [r s2] eqn:Hwr.
      exists file, s1, len, r, s2.
      do 4 (split; [done|]).
      destruct (to_ulong (to_int r) =? len); cbn [negb].
      * rewrite app_nil_r, <- !app_assoc. reflexivity.
      * unfold cf_error_2. rewrite Z.eqb_refl, <- !app_assoc. reflexivity.
    + left. exists file, s1. do 2 (split; [done|]).
      unfold cf_error_2. by rewrite Z.eqb_refl.
Qed.

(** X13. [cachefiles_write_page] fails an assertion exactly when one
    of its two pointers is NULL, or the object has a backing dentry whose
    inode is not a regular file.  In particular
    [ASSERTCMP(pos + len, ==, eof)] never fails. *)
Theorem write_page_asserts (env : cf_env) (op : ptr) (object : cachefiles_object)
    (cache : cachefiles_cache) (pg : page) (s : kstate) :
  cachefiles_write_page env op object cache pg s = None
  <-> op = NULL
      \/ page_addr pg = NULL
      \/ (backer object <> NULL
          /\ S_ISREG (i_mode (k_inodes s (d_inode (k_dentries s (backer object)))))
             = false).
Proof.
  pose proof (cachefiles_write_page_cases env op object cache pg s) as HC.
  cbv zeta in HC.
  destruct HC as [(Hnull & HC)
                 |[(Hop & Hpg & E & HC)
                  |[(Hop & Hpg & E & Hreg & HC)
                   |(Hop & Hpg & E & Hreg & [(_ & HC)
                            |(_ & [(err & s1 & _ & HC)
                                  |[(file0 & s1 & _ & _ & HC)
                                   |(file0 & s1 & len0 & r0 & s2 & _ & _ & _ & _
                                     & HC)]])])]]];
    rewrite HC.
  1: split; [intros _; tauto | done].
  2: split; [intros _; tauto | done].
  all: split; [intros H; discriminate H
              | intros [H|[H|(H1 & H2)]]; congruence].
Qed.

(** X14. [cachefiles_write_page] never writes beyond the store limit:
    whenever it calls the [write] callback, the position is the page index
    times the page size, the length is positive and at most a page, the
    write ends at or before the limit, and it is shorter than a page only
    if it ends exactly at a limit that is not page-aligned. *)
Theorem write_page_within_limit (env : cf_env) (op : ptr) (object : cachefiles_object)
    (cache : cachefiles_cache) (pg : page) (s : kstate)
    (r : Z) (tr : list cf_event) (s' : kstate) (file : ptr) (len pos : Z) :
  cachefiles_write_page env op object cache pg s = Some (r, tr, s') ->
  In (CFwrite file len pos) tr ->
  pos = to_ulong (page_index pg) * PAGE_SIZE
  /\ 0 < len <= PAGE_SIZE
  /\ pos + len <= store_limit_l object
  /\ (len = PAGE_SIZE \/ pos + len = store_limit_l object)
  /\ (len < PAGE_SIZE -> store_limit_l object mod PAGE_SIZE <> 0).
Proof.
  intros H Hin.
  pose proof (cachefiles_write_page_cases env op object cache pg s) as HC.
  cbv zeta in HC.
  destruct HC as [(_ & HC)
                 |[(_ & _ & _ & HC)
                  |[(_ & _ & _ & _ & HC)
                   |(_ & _ & _ & _ & [(_ & HC)
                            |(Hlt & [(err & s1 & _ & HC)
                                  |[(file0 & s1 & _ & _ & HC)
                                   |(file0 & s1 & len0 & r0 & s2 & _ & _ & Hlen & _
                                     & HC)]])])]]];
    rewrite HC in H; try discriminate H; injection H as <- <- <-.
  - destruct Hin.
  - destruct Hin.
  - destruct (err =? _); cbn in Hin; intuition discriminate.
  - cbn in Hin; intuition discriminate.
  - assert (file = file0 /\ len = len0 /\ pos = page_pos pg) as (-> & -> & ->).
    { assert (CFwrite file0 len0 (page_pos pg) = CFwrite file len pos) as E.
      { destruct (_ =? len0); cbn in Hin;
          repeat (destruct Hin as [Hin|Hin]; try discriminate Hin);
          first [exact Hin | destruct Hin]. }
      by injection E as -> -> ->. }
    destruct (page_pos_aligned pg) as (Hpos & Hal).
    destruct (write_len_spec _ _ Hpos Hal Hlt) as (len & Hlen' & Hb).
    rewrite Hlen in Hlen'. injection Hlen' as <-.
    split; [apply page_pos_eq | exact Hb].
Qed.

(** X15. The result of [cachefiles_write_page] is 0 or [-ENOBUFS].
    It is 0 exactly when the backing file was opened, has a [write]
    callback, and the callback returned the length it was given.  An I/O
    error is reported on the object exactly when [dentry_open] failed with
    [-EIO], or the file was opened and the result is not 0. *)
Theorem write_page_result (env : cf_env) (op : ptr) (object : cachefiles_object)
    (cache : cachefiles_cache) (pg : page) (s : kstate)
    (r : Z) (tr : list cf_event) (s' : kstate) :
  cachefiles_write_page env op object cache pg s = Some (r, tr, s') ->
  let pa := mk_path (cache_mnt cache) (backer object) in
  let opened := CFdentry_open (cache_mnt cache) (backer object) O_RDWR
                  (cache_cred cache) in
  (r = 0 \/ r = - ENOBUFS)
  /\ (r = 0
      <-> In opened tr
          /\ exists file s1 len rw s2,
               dentry_open env pa O_RDWR (cache_cred cache) s = (inr file, s1)
               /\ has_write env s1 file = true
               /\ write_len (page_pos pg) (store_limit_l object) = Some len
               /\ f_op_write env file len (page_pos pg) s1 = (rw, s2)
               /\ to_ulong (to_int rw) = len)
  /\ (In CFio_error tr
      <-> In opened tr
          /\ ((exists s1,
                 dentry_open env pa O_RDWR (cache_cred cache) s
                 = (inl (- EIO), s1))
              \/ (exists file s1,
                    dentry_open env pa O_RDWR (cache_cred cache) s
                    = (inr file, s1)
                    /\ r <> 0))).
Proof.
  intros H. cbv zeta.
  pose proof (cachefiles_write_page_cases env op object cache pg s) as HC.
  cbv zeta in HC.
  destruct HC as [(_ & HC)
                 |[(_ & _ & _ & HC)
                  |[(_ & _ & _ & _ & HC)
                   |(_ & _ & _ & _ & [(_ & HC)
                            |(Hlt & [(err & s1 & Hopen & HC)
                                  |[(file0 & s1 & Hopen & Hw & HC)
                                   |(file0 & s1 & len0 & r0 & s2 & Hopen & Hw
                                     & Hlen & Hwr & HC)]])])]]];
    rewrite HC in H; try discriminate H; injection H as <- <- <-.
  - split; [by right|]. cbn [In]. split; [split; [done|tauto]|tauto].
  - split; [by right|]. cbn [In]. split; [split; [done|tauto]|tauto].
  - split; [by right|]. rewrite Hopen. split.
    + split; [done|]. intros (_ & file & s3 & len & rw & s4 & E & _). discriminate E.
    + destruct (Z.eqb_spec err (- EIO)) as [->|Hne]; cbn [In app].
      * split; [intros _; split; [by left|left; by exists s1] | intros _; tauto].
      * split.
        -- intros [E|[]]. discriminate E.
        -- intros (_ & [(s3 & E)|(file & s3 & E & _)]); [|discriminate E].
           injection E as E _. done.
  - split; [by right|]. rewrite Hopen. split.
    + split; [done|].
      intros (_ & file & s3 & len & rw & s4 & E & Hw' & _).
      injection E as <- <-. congruence.
    + cbn [In app]. split; [|intros _; tauto].
      intros _. split; [by left|]. right. exists file0, s1. split; [done|].
      unfold ENOBUFS. lia.
  - rewrite Hopen, Hlen.
    destruct (Z.eqb_spec (to_ulong (to_int r0)) len0) as [E|E].
    + split; [by left|]. split.
      * split; [|done]. intros _. split; [cbn; tauto|].
        exists file0, s1, len0, r0, s2. done.
      * cbn [In app]. split.
        -- intros [E'|[E'|[E'|[E'|[E'|[E'|[E'|[]]]]]]]]; discriminate E'.
        -- intros (_ & [(s3 & E')|(file & s3 & _ & E')]); [discriminate E'|done].
    + split; [by right|]. split.
      * split; [done|].
        intros (_ & file & s3 & len & rw & s4 & E1 & _ & E2 & E3 & E4).
        injection E1 as <- <-. injection E2 as <-. rewrite Hwr in E3.
        injection E3 as <- <-. done.
      * split; [|intros _; cbn; tauto].
        intros _. split; [cbn; tauto|]. right. exists file0, s1.
        split; [done|]. unfold ENOBUFS. lia.
Qed.

Lemma write_page_within_limit_witness :
  0 < 1808 <= PAGE_SIZE /\ 8192 + 1808 <= store_limit_l demo_object.
Proof.
  destruct (write_page_within_limit demo_env demo_op demo_object demo_cache demo_page
              (demo_state NR_FILE) 0 demo_calls demo_written 1%nat 1808 8192)
    as (_ & H1 & H2 & _).
  - vm_compute. reflexivity.
  - vm_compute. tauto.
  - split; [exact H1 | exact H2].
Defined.

Lemma write_page_result_witness :
  In (CFdentry_open 3%nat 4%nat O_RDWR 2%nat) demo_calls.
Proof.
  destruct (write_page_result demo_env demo_op demo_object demo_cache demo_page
              (demo_state NR_FILE) 0 demo_calls demo_written) as (_ & H & _).
  - vm_compute. reflexivity.
  - apply H. reflexivity.
Defined.

(** X16. [cachefiles_write_page] calls [fput] as often as it calls the
    [write] callback, at most once, on the file that [dentry_open] returned,
    and right after the write, the restoring of the address limit and
    [kunmap]; only the report of an I/O error can follow.  Where the opened
    file has no [write] callback, the function reports an I/O error and
    returns [-ENOBUFS] in the state that [dentry_open] left: [fput] is not
    called on that path. *)
Theorem write_page_fput_pairing (env : cf_env) (op : ptr) (object : cachefiles_object)
    (cache : cachefiles_cache) (pg : page) (s : kstate)
    (r : Z) (tr : list cf_event) (s' : kstate) :
  cachefiles_write_page env op object cache pg s = Some (r, tr, s') ->
  let pa := mk_path (cache_mnt cache) (backer object) in
  let opened := CFdentry_open (cache_mnt cache) (backer object) O_RDWR
                  (cache_cred cache) in
  (length (filter (fun e => is_fput_call e = true) tr)
   = length (filter (fun e => is_write e = true) tr))
  /\ (length (filter (fun e => is_fput_call e = true) tr) <= 1)%nat
  /\ (forall file,
        In (CFfput file) tr ->
        exists l1 len l2,
          tr = l1 ++ [CFwrite file len (page_pos pg); CFset_fs_old;
                      CFkunmap (page_addr pg); CFfput file] ++ l2
          /\ (l2 = [] \/ l2 = [CFio_error])
          /\ fst (dentry_open env pa O_RDWR (cache_cred cache) s) = inr file)
  /\ (forall file s1,
        In opened tr ->
        dentry_open env pa O_RDWR (cache_cred cache) s = (inr file, s1) ->
        has_write env s1 file = false ->
        s' = s1 /\ tr = [opened; CFio_error] /\ r = - ENOBUFS).
Proof.
  intros H. cbv zeta.
  pose proof (cachefiles_write_page_cases env op object cache pg s) as HC.
  cbv zeta in HC.
  destruct HC as [(_ & HC)
                 |[(_ & _ & _ & HC)
                  |[(_ & _ & _ & _ & HC)
                   |(_ & _ & _ & _ & [(_ & HC)
                            |(Hlt & [(err & s1 & Hopen & HC)
                                  |[(file0 & s1 & Hopen & Hw & HC)
                                   |(file0 & s1 & len0 & r0 & s2 & Hopen & Hw
                                     & Hlen & Hwr & HC)]])])]]];
    rewrite HC in H; try discriminate H; injection H as <- <- <-.
  - do 2 (split; [cbn; lia|]). split; [intros file []|intros file s1 []].
  - do 2 (split; [cbn; lia|]). split; [intros file []|intros file s1 []].
  - rewrite Hopen. destruct (err =? - EIO).
    + do 2 (split; [vm_compute; lia|]). split.
      * intros file [E|[E|[]]]; discriminate E.
      * intros file s3 _ E. discriminate E.
    + do 2 (split; [vm_compute; lia|]). split.
      * intros file [E|[]]; discriminate E.
      * intros file s3 _ E. discriminate E.
  - rewrite Hopen. do 2 (split; [vm_compute; lia|]). split.
    + intros file [E|[E|[]]]; discriminate E.
    + intros file s3 _ E _. by injection E as <- <-.
  - rewrite Hopen. destruct (to_ulong (to_int r0) =? len0).
    + do 2 (split; [vm_compute; lia|]). split.
      * intros file Hin.
        assert (CFfput file0 = CFfput file) as E.
        { cbn in Hin.
          repeat (destruct Hin as [Hin|Hin]; try discriminate Hin);
            first [exact Hin | destruct Hin]. }
        injection E as <-.
        eexists [_; _; _], len0, []. cbn [app fst].
        split; [reflexivity|]. split; [by left|reflexivity].
      * intros file s3 _ E Hw'. injection E as <- <-. congruence.
    + do 2 (split; [vm_compute; lia|]). split.
      * intros file Hin.
        assert (CFfput file0 = CFfput file) as E.
        { cbn in Hin.
          repeat (destruct Hin as [Hin|Hin]; try discriminate Hin);
            first [exact Hin | destruct Hin]. }
        injection E as <-.
        eexists [_; _; _], len0, [CFio_error]. cbn [app fst].
        split; [reflexivity|]. split; [by right|reflexivity].
      * intros file s3 _ E Hw'. injection E as <- <-. congruence.
Qed.

Lemma write_page_fput_pairing_witness :
  (length (filter (fun e => is_fput_call e = true) demo_calls) <= 1)%nat.
Proof.
  destruct (write_page_fput_pairing demo_env demo_op demo_object demo_cache demo_page
              (demo_state NR_FILE) 0 demo_calls demo_written) as (_ & H & _).
  - vm_compute. reflexivity.
  - exact H.
Defined.

Lemma fput_last_state c file s :
  dec_count file s = 0 ->
  teardowns file (fput c file s) = S (teardowns file s)
  /\ k_rcu (fput c file s) = k_rcu s ++ [file]
  /\ PercpuCounter.sum (nr_files (fput c file s))
     = PercpuCounter.sum (nr_files s) - 1
  /\ f_path (k_files (fput c file s) file) = mk_path NULL NULL
  /\ f_inode (k_files (fput c file s) file) = NULL.
Proof.
  intros H. split; [by apply teardowns_fput_last|].
  rewrite (fput_last_eq _ _ _ H).
  destruct (__fput_spec c file (upd_file file (set_f_count 0) s))
    as (_ & -> & _ & -> & -> & _).
  destruct s as [F I D M C N B X O R T]. autorewrite with krec.
  split; [reflexivity|]. split; [apply sum_dec|]. done.
Qed.

Lemma fput_held_state c file s :
  dec_count file s <> 0 ->
  k_trace (fput c file s) = k_trace s
  /\ k_rcu (fput c file s) = k_rcu s
  /\ nr_files (fput c file s) = nr_files s
  /\ f_path (k_files (fput c file s) file) = f_path (k_files s file).
Proof.
  intros H. rewrite fput_eq. apply Z.eqb_neq in H. rewrite H.
  destruct s as [F I D M C N B X O R T]. autorewrite with krec. done.
Qed.

(** X17. What the [fput] of [cachefiles_write_page] does to the file
    table: the state that the call returns is [fput] applied to the state
    that the [write] callback left.  If the page writer holds the only
    reference, the teardown of the file has run once more, the object is
    queued for reclamation, the exact live count is one less and the path
    and inode of the object are cleared; otherwise only the count of the
    object has changed. *)
Theorem write_page_closes_file (env : cf_env) (op : ptr) (object : cachefiles_object)
    (cache : cachefiles_cache) (pg : page) (s : kstate)
    (r : Z) (tr : list cf_event) (s' : kstate) (file : ptr) :
  cachefiles_write_page env op object cache pg s = Some (r, tr, s') ->
  In (CFfput file) tr ->
  exists s1 len rw s2,
    dentry_open env (mk_path (cache_mnt cache) (backer object)) O_RDWR
      (cache_cred cache) s = (inr file, s1)
    /\ f_op_write env file len (page_pos pg) s1 = (rw, s2)
    /\ s' = fput (fput_ctx env) file s2
    /\ (dec_count file s2 = 0 ->
        teardowns file s' = S (teardowns file s2)
        /\ k_rcu s' = k_rcu s2 ++ [file]
        /\ PercpuCounter.sum (nr_files s') = PercpuCounter.sum (nr_files s2) - 1
        /\ f_path (k_files s' file) = mk_path NULL NULL
        /\ f_inode (k_files s' file) = NULL)
    /\ (dec_count file s2 <> 0 ->
        k_trace s' = k_trace s2
        /\ k_rcu s' = k_rcu s2
        /\ nr_files s' = nr_files s2
        /\ f_path (k_files s' file) = f_path (k_files s2 file)).
Proof.
  intros H Hin.
  pose proof (cachefiles_write_page_cases env op object cache pg s) as HC.
  cbv zeta in HC.
  destruct HC as [(_ & HC)
                 |[(_ & _ & _ & HC)
                  |[(_ & _ & _ & _ & HC)
                   |(_ & _ & _ & _ & [(_ & HC)
                            |(Hlt & [(err & s1 & Hopen & HC)
                                  |[(file0 & s1 & Hopen & Hw & HC)
                                   |(file0 & s1 & len0 & r0 & s2 & Hopen & Hw
                                     & Hlen & Hwr & HC)]])])]]];
    rewrite HC in H; try discriminate H; injection H as <- <- <-.
  - destruct Hin.
  - destruct Hin.
  - destruct (err =? - EIO); cbn in Hin;
      repeat (destruct Hin as [Hin|Hin]; try discriminate Hin); destruct Hin.
  - cbn in Hin.
    repeat (destruct Hin as [Hin|Hin]; try discriminate Hin); destruct Hin.
  - assert (CFfput file0 = CFfput file) as E.
    { destruct (_ =? len0); cbn in Hin;
        repeat (destruct Hin as [Hin|Hin]; try discriminate Hin);
        first [exact Hin | destruct Hin]. }
    injection E as <-.
    exists s1, len0, r0, s2.
    do 3 (split; [done|]).
    split; [apply fput_last_state | apply fput_held_state].
Qed.

Lemma write_page_closes_file_witness :
  k_rcu demo_written = [1%nat].
Proof.
  destruct (write_page_closes_file demo_env demo_op demo_object demo_cache demo_page
              (demo_state NR_FILE) 0 demo_calls demo_written 1%nat)
    as (s1 & len & rw & s2 & Hopen & Hwr & _ & Hlast & _).
  - vm_compute. reflexivity.
  - vm_compute. tauto.
  - assert (dentry_open demo_env
              (mk_path (cache_mnt demo_cache) (backer demo_object)) O_RDWR
              (cache_cred demo_cache) (demo_state NR_FILE)
            = (inr 1%nat, demo_backing)) as E by (vm_compute; reflexivity).
    rewrite E in Hopen. injection Hopen as <-.
    change ((len, demo_backing) = (rw, s2)) in Hwr. injection Hwr as _ <-.
    destruct Hlast as (_ & H & _).
    + vm_compute. reflexivity.
    + etransitivity; [exact H|]. vm_compute. reflexivity.
Defined.
